(** * manim-physics: the spring-block oscillator of [rigid_mechanics/harmonic.py]

    A shallow embedding of [SpringBlockOscillator] and of the few library
    objects it touches (numpy arrays of shape (3,), pymunk bodies, spaces and
    damped springs, manim lines, rectangles and vectorised mobjects).

    Conventions of the embedding.
    - Python floats are read as real numbers; [==] on floats is equality
      of reals.
    - A Python call that may raise returns a [Result]; a method that mutates
      objects is a function from the heap ([World]) to an outcome and the heap
      as the call leaves it, so that the state left behind by a raising call
      is part of the model.
    - Object identity is a natural number; a reference is the identity of the
      object it points to. *)

From Stdlib Require Import Reals Lra Lia ZArith String Bool List.
Import ListNotations.

Local Open Scope R_scope.

(* ================================================================== *)
(** ** Exceptions and outcomes *)

Inductive exn : Type :=
| NameError (name : string)
| RuntimeError (msg : string)
| AttributeError (attr : string)
| TypeError (msg : string)
| AssertionError (msg : string)
| ZeroDivisionError
| FloatingPointError.

Inductive Result (A : Type) : Type :=
| Raise (e : exn)
| Ok (a : A).

Arguments Raise {A} e.
Arguments Ok {A} a.

Definition rbind {A B} (r : Result A) (k : A -> Result B) : Result B :=
  match r with
  | Raise e => Raise e
  | Ok a => k a
  end.

Declare Scope result_scope.
Delimit Scope result_scope with result.
Notation "x <- c ;; k" := (rbind c (fun x => k))
  (at level 61, c at next level, right associativity) : result_scope.

(** Python's [x / y] on floats raises [ZeroDivisionError] when [y == 0]. *)
Definition truediv (x y : R) : Result R :=
  if Req_dec_T y 0 then Raise ZeroDivisionError else Ok (x / y).

(* ================================================================== *)
(** ** numpy: arrays of shape (3,) *)

Module np.

Record ndarray : Type := array { item0 : R; item1 : R; item2 : R }.

Definition add (u v : np.ndarray) : np.ndarray :=
  array (item0 u + item0 v) (item1 u + item1 v) (item2 u + item2 v).

Definition subtract (u v : np.ndarray) : np.ndarray :=
  array (item0 u - item0 v) (item1 u - item1 v) (item2 u - item2 v).

(** [v * k] and [k * v] for a scalar [k]. *)
Definition multiply (v : np.ndarray) (k : R) : np.ndarray :=
  array (item0 v * k) (item1 v * k) (item2 v * k).

(** [v / k] for a non-zero literal [k]. *)
Definition divide_lit (v : np.ndarray) (k : R) : np.ndarray :=
  array (item0 v / k) (item1 v / k) (item2 v / k).

(** [v / k] for a computed scalar [k].  numpy fills the result with nan or
    inf and signals a floating-point error (a warning by default, a
    [FloatingPointError] under [np.errstate(all="raise")]) when [k] is
    zero; the model reports the fault, so that its absence can be stated. *)
Definition divide (v : np.ndarray) (k : R) : Result np.ndarray :=
  if Req_dec_T k 0 then Raise FloatingPointError else Ok (divide_lit v k).

(** [np.linalg.norm(v[:2])]: the Euclidean norm of the first two items. *)
Definition norm2 (v : np.ndarray) : R :=
  sqrt (item0 v * item0 v + item1 v * item1 v).

(** [np.linspace(start, stop, num)] for [num >= 2]: [num] samples
    [start + i * step] with [step = (stop - start) / (num - 1)]. *)
Definition linspace (start stop : R) (num : Z) : list R :=
  let step := (stop - start) / IZR (num - 1) in
  map (fun i => start + INR i * step) (seq 0 (Z.to_nat num)).

End np.

Declare Scope np_scope.
Delimit Scope np_scope with np.
Infix "+" := np.add : np_scope.
Infix "-" := np.subtract : np_scope.
Infix "*" := np.multiply : np_scope.

(* ================================================================== *)
(** ** pymunk: vectors, bodies, damped springs, spaces *)

Module pymunk.

Record Vec2d : Type := mkVec2d { x : R; y : R }.

Definition vadd (u v : Vec2d) : Vec2d := mkVec2d (x u + x v) (y u + y v).

(** [Vec2d.rotated(angle)]: the vector turned by [angle] radians. *)
Definition rotated (v : Vec2d) (angle : R) : Vec2d :=
  mkVec2d (x v * cos angle - y v * sin angle)
          (x v * sin angle + y v * cos angle).

(** A reference to a body: the static body every space owns, or a dynamic
    body by identity. *)
Inductive BodyRef : Type :=
| static_body (scene : nat)
| dynamic_body (ident : nat).

Record Body : Type := mkBody {
  ident : nat;
  mass : R;
  position : Vec2d;
  velocity : Vec2d;
  angular_velocity : R;
  angle : R;
  is_sleeping : bool
}.

Definition set_position (p : Vec2d) (b : Body) : Body :=
  mkBody (ident b) (mass b) p (velocity b) (angular_velocity b) (angle b)
    (is_sleeping b).

Definition set_velocity (v : Vec2d) (b : Body) : Body :=
  mkBody (ident b) (mass b) (position b) v (angular_velocity b) (angle b)
    (is_sleeping b).

Definition set_angular_velocity (r : R) (b : Body) : Body :=
  mkBody (ident b) (mass b) (position b) (velocity b) r (angle b)
    (is_sleeping b).

Definition set_angle (r : R) (b : Body) : Body :=
  mkBody (ident b) (mass b) (position b) (velocity b) (angular_velocity b) r
    (is_sleeping b).

(** [Body.activate()] wakes the body; [Body.sleep()] puts it to sleep. *)
Definition activate (b : Body) : Body :=
  mkBody (ident b) (mass b) (position b) (velocity b) (angular_velocity b)
    (angle b) false.

Definition sleep (b : Body) : Body :=
  mkBody (ident b) (mass b) (position b) (velocity b) (angular_velocity b)
    (angle b) true.

(** [pymunk.DampedSpring(a, b, anchor_a, anchor_b, rest_length, stiffness,
    damping)]; [joint_id] is the identity of the constraint object. *)
Record DampedSpring : Type := mkDampedSpring {
  joint_id : nat;
  a : BodyRef;
  b : BodyRef;
  anchor_a : R * R;
  anchor_b : R * R;
  rest_length : R;
  stiffness : R;
  damping : R
}.

Record Space : Type := mkSpace {
  bodies : list nat;
  constraints : list DampedSpring
}.

Definition registered (j : DampedSpring) (s : Space) : bool :=
  existsb (fun j' => Nat.eqb (joint_id j') (joint_id j)) (constraints s).

(** [Space.add(joint)].  pymunk refuses an object the space already holds;
    the only caller passes a constraint it has just constructed, which no
    space holds yet. *)
Definition add (j : DampedSpring) (s : Space) : Space :=
  mkSpace (bodies s) (constraints s ++ [j]).

(** [Space.remove(joint)]: pymunk refuses a constraint that the space
    does not hold. *)
Definition remove (j : DampedSpring) (s : Space) : Result Space :=
  if registered j s
  then Ok (mkSpace (bodies s)
             (filter (fun j' => negb (Nat.eqb (joint_id j') (joint_id j)))
                     (constraints s)))
  else Raise (AssertionError "constraint not in space, already removed?").

Definition add_body (i : nat) (s : Space) : Space :=
  if existsb (Nat.eqb i) (bodies s) then s
  else mkSpace (bodies s ++ [i]) (constraints s).

End pymunk.

(* ================================================================== *)
(** ** manim: direction constants and the three shapes *)

Module manim.

(** [manim.constants] *)
Definition LEFT : np.ndarray := np.array (-1) 0 0.
Definition RIGHT : np.ndarray := np.array 1 0 0.
Definition UP : np.ndarray := np.array 0 1 0.
Definition DOWN : np.ndarray := np.array 0 (-1) 0.

(** A straight [Line]; [body] is the attribute a scene binds when it
    registers the line as a static body ([None]: no such attribute). *)
Record Line : Type := mkLine {
  line_start : np.ndarray;
  line_end : np.ndarray;
  line_body : option pymunk.BodyRef
}.

(** [Line.point_from_proportion(alpha)] on a straight segment. *)
Definition point_from_proportion (l : Line) (alpha : R) : np.ndarray :=
  (line_start l + (line_end l - line_start l) * alpha)%np.

(** A [Rectangle]; [body] is the attribute a scene binds when it makes the
    rectangle a rigid body ([None]: [hasattr(block, "body")] is false). *)
Record Rectangle : Type := mkRectangle {
  width : R;
  height : R;
  center : np.ndarray;
  body : option pymunk.Body
}.

Definition get_center (r : Rectangle) : np.ndarray := center r.

Definition move_to (r : Rectangle) (p : np.ndarray) : Rectangle :=
  mkRectangle (width r) (height r) p (body r).

Definition set_body (b : option pymunk.Body) (r : Rectangle) : Rectangle :=
  mkRectangle (width r) (height r) (center r) b.

(** The spring's [VMobject]: its stroke, its colour, the points last handed
    to [set_points_smoothly], and whether a redraw updater is installed. *)
Record VMobject : Type := mkVMobject {
  stroke_width : R;
  color : option string;
  points : list np.ndarray;
  updaters : nat
}.

Definition set_points_smoothly (pts : list np.ndarray) (m : VMobject) : VMobject :=
  mkVMobject (stroke_width m) (color m) pts (updaters m).

Definition add_updater (m : VMobject) : VMobject :=
  mkVMobject (stroke_width m) (color m) (points m) (S (updaters m)).

End manim.

(* ================================================================== *)
(** ** rigid_mechanics/harmonic.py *)

(** [from manim.constants import LEFT, RIGHT, UP]: the three direction
    constants the module binds. *)
Definition LEFT : np.ndarray := manim.LEFT.
Definition RIGHT : np.ndarray := manim.RIGHT.
Definition UP : np.ndarray := manim.UP.

(** The dataclass [SpringStyle] with its defaults. *)
Record SpringStyle : Type := mkSpringStyle {
  coils : Z;
  amplitude : R;
  stroke_width : R;
  color : option string
}.

Definition SpringStyle_default : SpringStyle :=
  mkSpringStyle 12 (1 / 10) 4 None.

(** The attributes of a [SpringBlockOscillator] instance.  [_spacescene] is
    a reference to the scene the oscillator was attached to ([None] is
    falsy, a scene is truthy), [spring_joint] the constraint it recorded as
    active. *)
Record SpringBlockOscillator : Type := mkOscillator {
  rest_length : R;
  stiffness : R;
  damping : R;
  block_mass : R;
  block_width : R;
  block_height : R;
  animate_spring : bool;
  _spacescene : option nat;
  spring_joint : option pymunk.DampedSpring;
  _spring_style : SpringStyle;
  anchor : manim.Line;
  block : manim.Rectangle;
  spring : manim.VMobject
}.

Definition set_spacescene (s : option nat) (o : SpringBlockOscillator) :=
  mkOscillator (rest_length o) (stiffness o) (damping o) (block_mass o)
    (block_width o) (block_height o) (animate_spring o) s (spring_joint o)
    (_spring_style o) (anchor o) (block o) (spring o).

Definition set_spring_joint (j : option pymunk.DampedSpring)
    (o : SpringBlockOscillator) :=
  mkOscillator (rest_length o) (stiffness o) (damping o) (block_mass o)
    (block_width o) (block_height o) (animate_spring o) (_spacescene o) j
    (_spring_style o) (anchor o) (block o) (spring o).

Definition set_anchor (l : manim.Line) (o : SpringBlockOscillator) :=
  mkOscillator (rest_length o) (stiffness o) (damping o) (block_mass o)
    (block_width o) (block_height o) (animate_spring o) (_spacescene o)
    (spring_joint o) (_spring_style o) l (block o) (spring o).

Definition set_block (r : manim.Rectangle) (o : SpringBlockOscillator) :=
  mkOscillator (rest_length o) (stiffness o) (damping o) (block_mass o)
    (block_width o) (block_height o) (animate_spring o) (_spacescene o)
    (spring_joint o) (_spring_style o) (anchor o) r (spring o).

Definition set_spring (m : manim.VMobject) (o : SpringBlockOscillator) :=
  mkOscillator (rest_length o) (stiffness o) (damping o) (block_mass o)
    (block_width o) (block_height o) (animate_spring o) (_spacescene o)
    (spring_joint o) (_spring_style o) (anchor o) (block o) m.

(* ------------------------------------------------------------------ *)
(** *** Geometry helpers *)

Definition _get_anchor_point (o : SpringBlockOscillator) : np.ndarray :=
  manim.point_from_proportion (anchor o) (1 / 2).

Definition _block_local_anchor (o : SpringBlockOscillator) : pymunk.Vec2d :=
  pymunk.mkVec2d (- block_width o / 2) 0.

Definition _block_anchor_point (o : SpringBlockOscillator) : np.ndarray :=
  match manim.body (block o) with
  | Some body =>
      let offset := pymunk.rotated (_block_local_anchor o) (pymunk.angle body) in
      let pos := pymunk.vadd (pymunk.position body) offset in
      np.array (pymunk.x pos) (pymunk.y pos) 0
  | None =>
      (manim.get_center (block o)
       + np.divide_lit (LEFT * block_width o) 2)%np
  end.

(** The body of [_redraw_spring] from [axis = block_point - anchor] to the
    end of the loop: the list [points] it hands to [set_points_smoothly]. *)
Definition spring_points (anchor block_point : np.ndarray)
    (style : SpringStyle) : Result (list np.ndarray) :=
  let axis := (block_point - anchor)%np in
  let length := np.norm2 axis in
  let '(axis, length) :=
    if Req_dec_T length 0 then (RIGHT, 1) else (axis, length) in
  (direction <- np.divide axis length ;;
   let normal := np.array (- np.item1 direction) (np.item0 direction) 0 in
   let resolution := Z.max (4 * coils style) 8 in
   let ts := np.linspace 0 1 resolution in
   Ok (fold_left
         (fun points t =>
            let sine := sin (2 * PI * IZR (coils style) * t) in
            points ++ [(anchor + axis * t + normal * sine * amplitude style)%np])
         ts []))%result.

Definition _redraw_spring (o : SpringBlockOscillator)
    : Result SpringBlockOscillator :=
  let anchor := _get_anchor_point o in
  let block_point := _block_anchor_point o in
  (points <- spring_points anchor block_point (_spring_style o) ;;
   Ok (set_spring (manim.set_points_smoothly points (spring o)) o))%result.

(* ------------------------------------------------------------------ *)
(** *** The heap: the oscillator, the scenes, the next fresh identity *)

(** A [SpaceScene] as the oscillator sees it: [scene.space.space], the
    pymunk space it owns. *)
Record SpaceScene : Type := mkSpaceScene { space : pymunk.Space }.

Record World : Type := mkWorld {
  self : SpringBlockOscillator;
  scenes : nat -> SpaceScene;
  next_id : nat
}.

(** A method call: the outcome and the heap as the call leaves it. *)
Definition M (A : Type) : Type := World -> Result A * World.

Definition ret {A} (a : A) : M A := fun w => (Ok a, w).

Definition raise {A} (e : exn) : M A := fun w => (Raise e, w).

Definition bind {A B} (m : M A) (k : A -> M B) : M B :=
  fun w =>
    match m w with
    | (Raise e, w') => (Raise e, w')
    | (Ok a, w') => k a w'
    end.

Definition lift {A} (r : Result A) : M A := fun w => (r, w).

Declare Scope heap_scope.
Delimit Scope heap_scope with heap.
Notation "x <- c ;; k" := (bind c (fun x => k))
  (at level 61, c at next level, right associativity) : heap_scope.
Notation "c ;; k" := (bind c (fun _ => k))
  (at level 61, right associativity) : heap_scope.

Definition get_self : M SpringBlockOscillator := fun w => (Ok (self w), w).

Definition modify_self (f : SpringBlockOscillator -> SpringBlockOscillator)
    : M unit :=
  fun w => (Ok tt, mkWorld (f (self w)) (scenes w) (next_id w)).

(** A fresh object identity. *)
Definition fresh : M nat :=
  fun w => (Ok (next_id w), mkWorld (self w) (scenes w) (S (next_id w))).

(** Mutation of the pymunk space of the scene at [scene]. *)
Definition modify_space (scene : nat) (f : pymunk.Space -> pymunk.Space)
    : M unit :=
  fun w =>
    (Ok tt,
     mkWorld (self w)
       (fun r => if Nat.eqb r scene then mkSpaceScene (f (space (scenes w r)))
                 else scenes w r)
       (next_id w)).

Definition try_modify_space (scene : nat)
    (f : pymunk.Space -> Result pymunk.Space) : M unit :=
  fun w =>
    match f (space (scenes w scene)) with
    | Raise e => (Raise e, w)
    | Ok s => modify_space scene (fun _ => s) w
    end.

(** [self.block.body.<attr> = ...] and [self.block.body.<method>()]: an
    [AttributeError] when the block has no [body]. *)
Definition with_block_body (f : pymunk.Body -> pymunk.Body) : M unit :=
  (o <- get_self ;;
   match manim.body (block o) with
   | None => raise (AttributeError "body")
   | Some body => modify_self (set_block (manim.set_body (Some (f body)) (block o)))
   end)%heap.

(* ------------------------------------------------------------------ *)
(** *** The scene's registration calls *)

(** Modelled from the spec: [SpaceScene.make_static_body] of
    rigid_mechanics/rigid_mechanics.py, which is not part of the sources at
    hand.  Section 4.5 has [attach] register the static anchor as
    non-dynamic: the shape is bound to the static body of the scene's
    space. *)
Definition make_static_body (scene : nat) (mob : manim.Line) : M manim.Line :=
  ret (manim.mkLine (manim.line_start mob) (manim.line_end mob)
         (Some (pymunk.static_body scene))).

(** Modelled from the spec: [SpaceScene.make_rigid_body] of
    rigid_mechanics/rigid_mechanics.py, which is not part of the sources at
    hand.  Sections 3 and 4.5: a body is created when the shape is made
    dynamic, with mass derived from the density and the shape's area, and is
    registered with the simulation; section 4.1 asks the bound anchor point
    to agree with the drawn one at attachment, so the new body sits at the
    shape's drawn centre, unrotated, at rest and awake.  A shape that has a
    body keeps it. *)
Definition make_rigid_body (scene : nat) (mob : manim.Rectangle) (density : R)
    : M manim.Rectangle :=
  match manim.body mob with
  | Some body =>
      (modify_space scene (pymunk.add_body (pymunk.ident body)) ;;
       ret mob)%heap
  | None =>
      (i <- fresh ;;
       let c := manim.get_center mob in
       let body :=
         pymunk.mkBody i (density * (manim.width mob * manim.height mob))
           (pymunk.mkVec2d (np.item0 c) (np.item1 c))
           (pymunk.mkVec2d 0 0) 0 0 false in
       modify_space scene (pymunk.add_body i) ;;
       ret (manim.set_body (Some body) mob))%heap
  end.

(* ------------------------------------------------------------------ *)
(** *** Pymunk helpers *)

Definition _create_joint : M unit :=
  (o <- get_self ;;
   match _spacescene o, manim.body (block o) with
   | Some scene, Some block_body =>
       match spring_joint o with
       | Some _ => ret tt
       | None =>
           let anchor_xy := _get_anchor_point o in
           let local_block := _block_local_anchor o in
           match manim.line_body (anchor o) with
           | None => raise (AttributeError "body")
           | Some anchor_body =>
               i <- fresh ;;
               let joint :=
                 pymunk.mkDampedSpring i
                   anchor_body
                   (pymunk.dynamic_body (pymunk.ident block_body))
                   (np.item0 anchor_xy, np.item1 anchor_xy)
                   (pymunk.x local_block, pymunk.y local_block)
                   (rest_length o)
                   (stiffness o)
                   (damping o) in
               modify_space scene (pymunk.add joint) ;;
               modify_self (set_spring_joint (Some joint))
           end
       end
   | _, _ => ret tt
   end)%heap.

Definition attach_to_scene (scene : nat) : M unit :=
  (modify_self (set_spacescene (Some scene)) ;;
   o <- get_self ;;
   anchor' <- make_static_body scene (anchor o) ;;
   modify_self (set_anchor anchor') ;;
   let block_area := block_width o * block_height o in
   density <- (if Req_dec_T block_area 0 then ret 1
               else lift (truediv (block_mass o) block_area)) ;;
   block' <- make_rigid_body scene (block o) density ;;
   modify_self (set_block block') ;;
   _create_joint)%heap.

(* ------------------------------------------------------------------ *)
(** *** Public API *)

Definition start_oscillation (displacement velocity : R) : M unit :=
  (o <- get_self ;;
   match _spacescene o with
   | None =>
       raise (RuntimeError
                "attach_to_scene must be called before starting motion")
   | Some _ =>
       _create_joint ;;
       o <- get_self ;;
       let rest_center :=
         (_get_anchor_point o + RIGHT * (rest_length o + block_width o / 2))%np in
       let new_center := (rest_center + RIGHT * displacement)%np in
       with_block_body
         (pymunk.set_position
            (pymunk.mkVec2d (np.item0 new_center) (np.item1 new_center))) ;;
       with_block_body (pymunk.set_velocity (pymunk.mkVec2d velocity 0)) ;;
       with_block_body (pymunk.set_angular_velocity 0) ;;
       with_block_body (pymunk.set_angle 0) ;;
       with_block_body pymunk.activate
   end)%heap.

Definition stop_oscillation : M unit :=
  (o <- get_self ;;
   match _spacescene o with
   | None => ret tt
   | Some scene =>
       match spring_joint o with
       | Some joint =>
           try_modify_space scene (pymunk.remove joint) ;;
           modify_self (set_spring_joint None)
       | None => ret tt
       end ;;
       o' <- get_self ;;
       match manim.body (block o') with
       | Some _ => with_block_body pymunk.sleep
       | None => ret tt
       end
   end)%heap.

Definition reset_displacement : M unit :=
  (o <- get_self ;;
   match manim.body (block o) with
   | None => ret tt
   | Some _ =>
       let rest_center :=
         (_get_anchor_point o + RIGHT * (rest_length o + block_width o / 2))%np in
       with_block_body
         (pymunk.set_position
            (pymunk.mkVec2d (np.item0 rest_center) (np.item1 rest_center))) ;;
       with_block_body (pymunk.set_velocity (pymunk.mkVec2d 0 0)) ;;
       with_block_body (pymunk.set_angular_velocity 0) ;;
       with_block_body (pymunk.set_angle 0)
   end)%heap.

(** The per-frame updater [lambda mob: self._redraw_spring()]. *)
Definition redraw : M unit :=
  (o <- get_self ;;
   o' <- lift (_redraw_spring o) ;;
   modify_self (fun _ => o'))%heap.

(* ------------------------------------------------------------------ *)
(** *** The module namespace and the constructor *)

Local Open Scope string_scope.
Local Open Scope list_scope.
Local Open Scope R_scope.

Inductive pyobject : Type :=
| py_array (v : np.ndarray)
| py_class (name : string)
| py_module (name : string)
| py_other.

Definition namespace : Type := list (string * pyobject).

Fixpoint lookup (name : string) (ns : namespace) : option pyobject :=
  match ns with
  | [] => None
  | (n, v) :: rest => if String.eqb n name then Some v else lookup name rest
  end.

(** The names bound at module level in harmonic.py, in the order its
    statements bind them (lines 3 to 30). *)
Definition harmonic_globals : namespace :=
  [ ("annotations", py_other);
    ("dataclass", py_other);
    ("Optional", py_other);
    ("LEFT", py_array manim.LEFT);
    ("RIGHT", py_array manim.RIGHT);
    ("UP", py_array manim.UP);
    ("Line", py_class "Line");
    ("Rectangle", py_class "Rectangle");
    ("VMobject", py_class "VMobject");
    ("VGroup", py_class "VGroup");
    ("np", py_module "numpy");
    ("pymunk", py_module "pymunk");
    ("SpaceScene", py_class "SpaceScene");
    ("__all__", py_other);
    ("SpringStyle", py_class "SpringStyle");
    ("SpringBlockOscillator", py_class "SpringBlockOscillator") ].

(** The builtins the module's code refers to. *)
Definition builtins : namespace :=
  [ ("super", py_other); ("max", py_other); ("hasattr", py_other);
    ("tuple", py_other); ("RuntimeError", py_class "RuntimeError") ].

(** Loading a global name: the module namespace, then the builtins, then
    [NameError]. *)
Definition load_global (globals : namespace) (name : string) : Result pyobject :=
  match lookup name globals with
  | Some v => Ok v
  | None =>
      match lookup name builtins with
      | Some v => Ok v
      | None => Raise (NameError name)
      end
  end.

Definition load_array (globals : namespace) (name : string)
    : Result np.ndarray :=
  (v <- load_global globals name ;;
   match v with
   | py_array a => Ok a
   | _ => Raise (TypeError "unsupported operand type(s)")
   end)%result.

(** The constructor's arguments, at their annotated types.  The style
    dictionaries and [**kwargs] only reach the manim constructors and are
    left out, as are [super().__init__] and [self.add], which keep the
    scene graph and touch none of the attributes below. *)
Record InitArgs : Type := mkInitArgs {
  arg_rest_length : R;
  arg_stiffness : R;
  arg_damping : R;
  arg_block_mass : R;
  arg_block_size : R * R;
  arg_anchor_point : np.ndarray;
  arg_spring_style : option SpringStyle;
  arg_animate_spring : bool
}.

Definition InitArgs_default : InitArgs :=
  mkInitArgs (5 / 2) 18 (7 / 10) (3 / 2) (8 / 10, 8 / 10)
    (np.array (-4) 0 0) None true.

(** [SpringBlockOscillator.__init__], run in a module whose global names
    are [globals]. *)
Definition __init__ (globals : namespace) (args : InitArgs)
    : Result SpringBlockOscillator :=
  let rest_length := arg_rest_length args in
  let '(block_width, block_height) := arg_block_size args in
  let anchor_point := arg_anchor_point args in
  let style :=
    match arg_spring_style args with
    | Some s => s
    | None => SpringStyle_default
    end in
  (_ <- load_global globals "Line" ;;
   up <- load_array globals "UP" ;;
   down <- load_array globals "DOWN" ;;
   let anchor_line :=
     manim.mkLine (anchor_point + up * (6 / 10))%np
                  (anchor_point + down * (6 / 10))%np None in
   _ <- load_global globals "Rectangle" ;;
   let block_rect :=
     manim.mkRectangle block_width block_height (np.array 0 0 0) None in
   right <- load_array globals "RIGHT" ;;
   let block_rect :=
     manim.move_to block_rect
       (anchor_point + right * (rest_length + block_width / 2))%np in
   _ <- load_global globals "VMobject" ;;
   let spring_mob := manim.mkVMobject (stroke_width style) (color style) [] 0 in
   let o :=
     mkOscillator rest_length (arg_stiffness args) (arg_damping args)
       (arg_block_mass args) block_width block_height
       (arg_animate_spring args) None None style anchor_line block_rect spring_mob in
   o <- _redraw_spring o ;;
   Ok (if arg_animate_spring args
       then set_spring (manim.add_updater (spring o)) o
       else o))%result.

(** The module as published: the class is called with the module's own
    globals. *)
Definition SpringBlockOscillator_new (args : InitArgs)
    : Result SpringBlockOscillator :=
  __init__ harmonic_globals args.

(* ================================================================== *)
(** ** Vocabulary of the statements *)

(** The anchor and the far point have the same projection on the drawing
    plane: the axis is degenerate for [_redraw_spring]. *)
Definition degenerate (anchor far : np.ndarray) : Prop :=
  np.item0 far = np.item0 anchor /\ np.item1 far = np.item1 anchor.

(** The [i]-th of [n] parameter values spread evenly over [0, 1]. *)
Definition uniform_sample (n i : nat) : R := INR i / INR (n - 1).

(** The in-plane perpendicular of [axis / |axis|], [|axis|] being the
    length of the projection of [axis] on the drawing plane. *)
Definition planar_normal (axis : np.ndarray) : np.ndarray :=
  np.array (- (np.item1 axis / np.norm2 axis))
           (np.item0 axis / np.norm2 axis) 0.

(** [anchor + axis * t + normal * a * sin(2 pi c t)], item by item. *)
Definition coil_point (anchor axis normal : np.ndarray) (c : Z) (a : R)
    (t : R) : np.ndarray :=
  np.array
    (np.item0 anchor + np.item0 axis * t
     + np.item0 normal * a * sin (2 * PI * IZR c * t))
    (np.item1 anchor + np.item1 axis * t
     + np.item1 normal * a * sin (2 * PI * IZR c * t))
    (np.item2 anchor + np.item2 axis * t
     + np.item2 normal * a * sin (2 * PI * IZR c * t)).

(** The point the specification of the curve synthesizer gives for the
    parameter [t], with [axis = far - anchor] whatever the two points are. *)
Definition specified_point (anchor far : np.ndarray) (style : SpringStyle)
    (t : R) : np.ndarray :=
  let axis := (far - anchor)%np in
  coil_point anchor axis (planar_normal axis) (coils style) (amplitude style) t.

(** The axis the synthesizer draws along after its guard, and the normal it
    derives from it. *)
Definition drawn_axis (anchor far : np.ndarray) : np.ndarray :=
  if Req_dec_T (np.norm2 (far - anchor)%np) 0 then RIGHT else (far - anchor)%np.

Definition drawn_normal (anchor far : np.ndarray) : np.ndarray :=
  if Req_dec_T (np.norm2 (far - anchor)%np) 0 then UP
  else planar_normal (far - anchor)%np.

(** The constraints registered with the simulation of the scene [scene]. *)
Definition active_constraints (w : World) (scene : nat)
    : list pymunk.DampedSpring :=
  pymunk.constraints (space (scenes w scene)).

(** An oscillator as the constructor leaves it: no scene, no recorded
    constraint, and shapes that no scene has bound to a body. *)
Definition unattached (o : SpringBlockOscillator) : Prop :=
  _spacescene o = None /\ spring_joint o = None /\
  manim.body (block o) = None /\ manim.line_body (anchor o) = None.

(** An oscillator that has been through [attach_to_scene]: it refers to a
    scene, and both of its shapes are bound to bodies. *)
Definition attached (o : SpringBlockOscillator) : Prop :=
  _spacescene o <> None /\ manim.body (block o) <> None /\
  manim.line_body (anchor o) <> None.

(** The rest position of the block's centre: the anchor point moved right
    by the rest length and half the block's width. *)
Definition rest_center (o : SpringBlockOscillator) : pymunk.Vec2d :=
  pymunk.mkVec2d
    (np.item0 (_get_anchor_point o) + (rest_length o + block_width o / 2))
    (np.item1 (_get_anchor_point o)).

Inductive operation : Type :=
| Attach (scene : nat)
| Start (displacement velocity : R)
| Stop
| Reset
| Redraw.

Definition run (op : operation) : M unit :=
  match op with
  | Attach scene => attach_to_scene scene
  | Start displacement velocity => start_oscillation displacement velocity
  | Stop => stop_oscillation
  | Reset => reset_displacement
  | Redraw => redraw
  end.

(** The heap after a call, whether it returned or raised. *)
Definition after (op : operation) (w : World) : World := snd (run op w).

(** A heap in which the oscillator is fresh and no simulation holds a
    constraint yet. *)
Definition initial (w : World) : Prop :=
  unattached (self w) /\ forall scene, active_constraints w scene = [].

Inductive reachable : World -> Prop :=
| reachable_initial : forall w, initial w -> reachable w
| reachable_after : forall w op, reachable w -> reachable (after op w).

Definition at_most_one_constraint (w : World) : Prop :=
  (forall scene, (length (active_constraints w scene) <= 1)%nat) /\
  forall scene1 scene2 j1 j2,
    In j1 (active_constraints w scene1) ->
    In j2 (active_constraints w scene2) ->
    scene1 = scene2 /\ j1 = j2.

Definition exactly_one_constraint (w : World) : Prop :=
  exists scene joint,
    spring_joint (self w) = Some joint /\
    active_constraints w scene = [joint] /\
    forall scene', scene' <> scene -> active_constraints w scene' = [].

(** What the lifecycle maintains. *)
Definition lifecycle_invariant (w : World) : Prop :=
  (_spacescene (self w) <> None -> attached (self w)) /\
  match spring_joint (self w) with
  | None => forall scene, active_constraints w scene = []
  | Some joint =>
      exists scene,
        active_constraints w scene = [joint] /\
        forall scene', scene' <> scene -> active_constraints w scene' = []
  end.

(** The constraint [_create_joint] builds in the heap [w] for the scene
    bodies [anchor_body] and [block_body]. *)
Definition new_joint (w : World) (anchor_body : pymunk.BodyRef)
    (block_body : pymunk.Body) : pymunk.DampedSpring :=
  pymunk.mkDampedSpring (next_id w) anchor_body
    (pymunk.dynamic_body (pymunk.ident block_body))
    (np.item0 (_get_anchor_point (self w)), np.item1 (_get_anchor_point (self w)))
    (- block_width (self w) / 2, 0)
    (rest_length (self w)) (stiffness (self w)) (damping (self w)).

Definition register_joint (scene : nat) (joint : pymunk.DampedSpring)
    (w : World) : World :=
  mkWorld (set_spring_joint (Some joint) (self w))
    (fun r => if Nat.eqb r scene
              then mkSpaceScene (pymunk.add joint (space (scenes w r)))
              else scenes w r)
    (S (next_id w)).

(** The heap in which the block's body is [body]. *)
Definition put_block_body (body : pymunk.Body) (w : World) : World :=
  mkWorld (set_block (manim.set_body (Some body) (block (self w))) (self w))
    (scenes w) (next_id w).

(** The body [start_oscillation] leaves behind, from the body it found. *)
Definition started_body (o : SpringBlockOscillator)
    (displacement velocity : R) (body : pymunk.Body) : pymunk.Body :=
  let center :=
    (_get_anchor_point o + RIGHT * (rest_length o + block_width o / 2)
     + RIGHT * displacement)%np in
  pymunk.activate
    (pymunk.set_angle 0
       (pymunk.set_angular_velocity 0
          (pymunk.set_velocity (pymunk.mkVec2d velocity 0)
             (pymunk.set_position
                (pymunk.mkVec2d (np.item0 center) (np.item1 center)) body)))).

(** The same oscillator with the block's [body] attribute taken away: the
    resolver then follows its unbound path. *)
Definition unbound (o : SpringBlockOscillator) : SpringBlockOscillator :=
  set_block (manim.set_body None (block o)) o.

(** The configuration of an oscillator: what the constructor fixes and no
    later call is meant to change. *)
Definition config (o : SpringBlockOscillator)
    : R * R * R * R * np.ndarray * np.ndarray :=
  (rest_length o, stiffness o, damping o, block_width o,
   manim.line_start (anchor o), manim.line_end (anchor o)).

(** A monadic step that maintains [P] whether it returns or raises. *)
Definition maintains {A} (P : World -> Prop) (m : M A) : Prop :=
  forall w, P w -> P (snd (m w)).

(** The oscillator of the specification's scenario, as the constructor
    would leave it: rest length 2.5, anchor at the origin, block 0.8 wide. *)
Definition oscillator0 : SpringBlockOscillator :=
  mkOscillator (5 / 2) 18 (7 / 10) (3 / 2) (8 / 10) (8 / 10) true None None
    SpringStyle_default
    (manim.mkLine (np.array 0 (6 / 10) 0) (np.array 0 (- (6 / 10)) 0) None)
    (manim.mkRectangle (8 / 10) (8 / 10) (np.array (29 / 10) 0 0) None)
    (manim.mkVMobject 4 None [] 1).

Definition empty_scenes : nat -> SpaceScene :=
  fun _ => mkSpaceScene (pymunk.mkSpace [] []).

Definition world0 : World := mkWorld oscillator0 empty_scenes 0.

Definition body0 : pymunk.Body :=
  pymunk.mkBody 0 (3 / 2) (pymunk.mkVec2d (29 / 10) 0) (pymunk.mkVec2d 0 0)
    0 0 false.

(** The same oscillator with a body on its block and no scene. *)
Definition world_with_body : World := put_block_body body0 world0.

(** The same oscillator bound to scene 0, no constraint recorded. *)
Definition world_attached : World :=
  mkWorld
    (set_spacescene (Some 0%nat)
       (set_anchor
          (manim.mkLine (np.array 0 (6 / 10) 0) (np.array 0 (- (6 / 10)) 0)
             (Some (pymunk.static_body 0)))
          (self world_with_body)))
    empty_scenes 1.

(** The scenario's block drawn one unit above the drawing plane, bound to a
    body that sits under its centre. *)
Definition raised_oscillator : SpringBlockOscillator :=
  set_block
    (manim.mkRectangle (8 / 10) (8 / 10) (np.array (29 / 10) 0 1) (Some body0))
    oscillator0.

(** The heap after a sequence of calls, each returning or raising. *)
Definition after_all (ops : list operation) (w : World) : World :=
  fold_left (fun w' op => after op w') ops w.

(** The squared distance between the projections of two points on the
    drawing plane. *)
Definition planar_gap_sq (p q : np.ndarray) : R :=
  (np.item0 p - np.item0 q) * (np.item0 p - np.item0 q)
  + (np.item1 p - np.item1 q) * (np.item1 p - np.item1 q).

(** The point of the drawn axis at the parameter [t]. *)
Definition axis_point (anchor far : np.ndarray) (t : R) : np.ndarray :=
  (anchor + drawn_axis anchor far * t)%np.

(** The body [reset_displacement] leaves behind, from the body it found. *)
Definition reset_body (o : SpringBlockOscillator) (body : pymunk.Body)
    : pymunk.Body :=
  let center :=
    (_get_anchor_point o + RIGHT * (rest_length o + block_width o / 2))%np in
  pymunk.set_angle 0
    (pymunk.set_angular_velocity 0
       (pymunk.set_velocity (pymunk.mkVec2d 0 0)
          (pymunk.set_position
             (pymunk.mkVec2d (np.item0 center) (np.item1 center)) body))).

(** The heap once [stop_oscillation] has taken [joint] out of the
    simulation of [scene] and cleared the record. *)
Definition unregister_joint (scene : nat) (joint : pymunk.DampedSpring)
    (w : World) : World :=
  mkWorld (set_spring_joint None (self w))
    (fun r =>
       if Nat.eqb r scene
       then mkSpaceScene
              (pymunk.mkSpace (pymunk.bodies (space (scenes w scene)))
                 (filter
                    (fun j' =>
                       negb (Nat.eqb (pymunk.joint_id j') (pymunk.joint_id joint)))
                    (pymunk.constraints (space (scenes w scene)))))
       else scenes w r)
    (next_id w).

(** The body's position as a point of the drawing plane. *)
Definition body_point (body : pymunk.Body) : np.ndarray :=
  np.array (pymunk.x (pymunk.position body)) (pymunk.y (pymunk.position body)) 0.

(* ================================================================== *)
(** ** _compat.py *)

Module compat.

(** The renderer enum, as manim defines it and as the fallback class of
    lines 13 to 15 repeats it. *)
Inductive RendererType : Type :=
| CAIRO
| OPENGL.

(** [member.value] *)
Definition value (m : RendererType) : string :=
  match m with
  | CAIRO => "cairo"
  | OPENGL => "opengl"
  end.

Definition eqb (m1 m2 : RendererType) : bool :=
  match m1, m2 with
  | CAIRO, CAIRO | OPENGL, OPENGL => true
  | _, _ => false
  end.

(** What [renderer] and [config.renderer] may hold: [None], a member of the
    enum, a string, or some other object, known by what [str] makes of it. *)
Inductive pyvalue : Type :=
| py_None
| py_member (m : RendererType)
| py_string (s : string)
| py_object (repr : string).

Inductive enum_error : Type :=
| ValueError (msg : string).

(** [RendererType(value)]: the member itself, or the member whose value is
    [value]; anything else is no valid [RendererType]. *)
Definition lookup_member (v : pyvalue) : enum_error + RendererType :=
  match v with
  | py_member m => inr m
  | py_string s =>
      if String.eqb s (value CAIRO) then inr CAIRO
      else if String.eqb s (value OPENGL) then inr OPENGL
      else inl (ValueError "is not a valid RendererType")
  | _ => inl (ValueError "is not a valid RendererType")
  end.

(** [str(value)] *)
Definition str (v : pyvalue) : string :=
  match v with
  | py_None => "None"
  | py_member CAIRO => "RendererType.CAIRO"
  | py_member OPENGL => "RendererType.OPENGL"
  | py_string s => s
  | py_object repr => repr
  end.

(** [str.lower] on ASCII text: the letters A to Z move to a to z. *)
Definition lower_char (c : Ascii.ascii) : Ascii.ascii :=
  let n := Ascii.nat_of_ascii c in
  if (Nat.leb 65 n && Nat.leb n 90)%bool
  then Ascii.ascii_of_nat (n + 32)
  else c.

Fixpoint lower (s : string) : string :=
  match s with
  | EmptyString => EmptyString
  | String c rest => String (lower_char c) (lower rest)
  end.

(** [get_renderer_type(renderer)], with [config.renderer] as a parameter. *)
Definition get_renderer_type (config_renderer renderer : pyvalue)
    : RendererType :=
  let value_ :=
    match renderer with
    | py_None => config_renderer
    | _ => renderer
    end in
  match value_ with
  | py_member m => m
  | _ =>
      match lookup_member value_ with
      | inr m => m
      | inl _ =>
          if String.eqb (lower (str value_)) (value OPENGL) then OPENGL
          else CAIRO
      end
  end.

Definition is_opengl_renderer (config_renderer renderer : pyvalue) : bool :=
  eqb (get_renderer_type config_renderer renderer) OPENGL.

(** The value [get_renderer_type] examines: the argument, or
    [config.renderer] when the argument is [None]. *)
Definition examined (config_renderer renderer : pyvalue) : pyvalue :=
  match renderer with
  | py_None => config_renderer
  | _ => renderer
  end.

End compat.

(* ================================================================== *)
(** ** The curve synthesizer *)

Lemma norm2_zero_iff (v : np.ndarray) :
  np.norm2 v = 0 <-> np.item0 v = 0 /\ np.item1 v = 0.
Proof.
  unfold np.norm2. split.
  - intros H. apply sqrt_eq_0 in H; [ | nra ].
    split; nra.
  - intros [-> ->]. replace (0 * 0 + 0 * 0) with 0 by ring. apply sqrt_0.
Qed.

Lemma degenerate_norm2 (anchor far : np.ndarray) :
  degenerate anchor far <-> np.norm2 (far - anchor)%np = 0.
Proof.
  rewrite norm2_zero_iff. unfold degenerate. simpl.
  split; intros [? ?]; split; lra.
Qed.

Lemma append_loop {A B} (f : A -> B) (l : list A) (acc : list B) :
  fold_left (fun points t => points ++ [f t]) l acc = acc ++ map f l.
Proof.
  revert acc. induction l as [ | t l IH ]; intros acc; simpl.
  - now rewrite app_nil_r.
  - rewrite IH, <- app_assoc. reflexivity.
Qed.

Lemma linspace_length (start stop : R) (num : Z) :
  length (np.linspace start stop num) = Z.to_nat num.
Proof. unfold np.linspace. now rewrite length_map, length_seq. Qed.

Lemma linspace_unit_nth (num : Z) (i : nat) (d : R) :
  (2 <= num)%Z -> (i < Z.to_nat num)%nat ->
  nth i (np.linspace 0 1 num) d = uniform_sample (Z.to_nat num) i.
Proof.
  intros Hnum Hi. unfold np.linspace, uniform_sample.
  rewrite (nth_indep _ d (0 + INR 0 * ((1 - 0) / IZR (num - 1))))
    by now rewrite length_map, length_seq.
  rewrite (map_nth (fun i => 0 + INR i * ((1 - 0) / IZR (num - 1)))).
  rewrite seq_nth by assumption. simpl (0 + i)%nat.
  assert (E : IZR (num - 1) = INR (Z.to_nat num - 1)).
  { rewrite INR_IZR_INZ. f_equal. lia. }
  rewrite E. unfold Rdiv. ring.
Qed.

Lemma spring_points_nondegenerate (anchor far : np.ndarray) (style : SpringStyle) :
  ~ degenerate anchor far ->
  spring_points anchor far style =
  Ok (map (coil_point anchor (far - anchor)%np (planar_normal (far - anchor)%np)
             (coils style) (amplitude style))
          (np.linspace 0 1 (Z.max (4 * coils style) 8))).
Proof.
  intros Hnd. rewrite degenerate_norm2 in Hnd.
  unfold spring_points.
  destruct (Req_dec_T (np.norm2 (far - anchor)%np) 0) as [E | _]; [ tauto | ].
  unfold np.divide.
  destruct (Req_dec_T (np.norm2 (far - anchor)%np) 0) as [E | _]; [ tauto | ].
  cbn [rbind]. rewrite append_loop. cbn [app]. f_equal.
  apply map_ext. intros t.
  unfold coil_point, planar_normal, np.add, np.multiply, np.subtract,
    np.divide_lit.
  cbn [np.item0 np.item1 np.item2].
  f_equal; unfold Rdiv; ring.
Qed.

Lemma spring_points_degenerate (anchor far : np.ndarray) (style : SpringStyle) :
  degenerate anchor far ->
  spring_points anchor far style =
  Ok (map (coil_point anchor RIGHT UP (coils style) (amplitude style))
          (np.linspace 0 1 (Z.max (4 * coils style) 8))).
Proof.
  intros Hd. rewrite degenerate_norm2 in Hd.
  unfold spring_points.
  destruct (Req_dec_T (np.norm2 (far - anchor)%np) 0) as [_ | N]; [ | tauto ].
  unfold np.divide.
  destruct (Req_dec_T 1 0) as [E | _]; [ lra | ].
  cbn [rbind]. rewrite append_loop. cbn [app]. f_equal.
  apply map_ext. intros t.
  unfold coil_point, np.add, np.multiply, np.divide_lit, RIGHT, UP,
    manim.RIGHT, manim.UP.
  cbn [np.item0 np.item1 np.item2].
  f_equal; field.
Qed.

Lemma drawn_nondegenerate (anchor far : np.ndarray) :
  ~ degenerate anchor far ->
  drawn_axis anchor far = (far - anchor)%np /\
  drawn_normal anchor far = planar_normal (far - anchor)%np.
Proof.
  rewrite degenerate_norm2. unfold drawn_axis, drawn_normal. intros N.
  destruct (Req_dec_T (np.norm2 (far - anchor)%np) 0); tauto.
Qed.

Lemma drawn_degenerate (anchor far : np.ndarray) :
  degenerate anchor far ->
  drawn_axis anchor far = RIGHT /\ drawn_normal anchor far = UP.
Proof.
  rewrite degenerate_norm2. unfold drawn_axis, drawn_normal. intros N.
  destruct (Req_dec_T (np.norm2 (far - anchor)%np) 0); tauto.
Qed.

Lemma degenerate_dec (anchor far : np.ndarray) :
  degenerate anchor far \/ ~ degenerate anchor far.
Proof.
  unfold degenerate.
  destruct (Req_dec_T (np.item0 far) (np.item0 anchor));
    destruct (Req_dec_T (np.item1 far) (np.item1 anchor)); tauto.
Qed.

Lemma spring_points_closed_form (anchor far : np.ndarray) (style : SpringStyle) :
  spring_points anchor far style =
  Ok (map (coil_point anchor (drawn_axis anchor far) (drawn_normal anchor far)
             (coils style) (amplitude style))
          (np.linspace 0 1 (Z.max (4 * coils style) 8))).
Proof.
  destruct (degenerate_dec anchor far) as [Hd | Hnd].
  - destruct (drawn_degenerate _ _ Hd) as [-> ->].
    now apply spring_points_degenerate.
  - destruct (drawn_nondegenerate _ _ Hnd) as [-> ->].
    now apply spring_points_nondegenerate.
Qed.

Lemma resolution_to_nat (c : Z) :
  (8 <= Z.to_nat (Z.max (4 * c) 8))%nat.
Proof. lia. Qed.

Lemma closed_form_nth (anchor axis normal d : np.ndarray) (c : Z) (a : R)
    (num : Z) (i : nat) :
  (2 <= num)%Z -> (i < Z.to_nat num)%nat ->
  nth i (map (coil_point anchor axis normal c a) (np.linspace 0 1 num)) d =
  coil_point anchor axis normal c a (uniform_sample (Z.to_nat num) i).
Proof.
  intros Hnum Hi.
  rewrite (nth_indep _ d (coil_point anchor axis normal c a 0))
    by now rewrite length_map, linspace_length.
  rewrite map_nth. now rewrite linspace_unit_nth.
Qed.

Lemma sin_whole_turns (c : Z) : sin (2 * PI * IZR c * 1) = 0.
Proof.
  apply sin_eq_0_1. exists (2 * c)%Z. rewrite mult_IZR. ring.
Qed.

Lemma uniform_sample_first (n : nat) : uniform_sample n 0 = 0.
Proof. unfold uniform_sample. simpl. unfold Rdiv. ring. Qed.

Lemma uniform_sample_last (n : nat) :
  (2 <= n)%nat -> uniform_sample n (n - 1) = 1.
Proof.
  intros Hn. unfold uniform_sample. apply Rinv_r.
  apply not_0_INR. lia.
Qed.

Lemma list_ends {A} (l : list A) (d : A) :
  (2 <= length l)%nat ->
  exists middle, l = nth 0 l d :: middle ++ [nth (length l - 1) l d].
Proof.
  destruct l as [ | x l ]; simpl; [ lia | ]. intros Hlen.
  assert (Hne : l <> []) by (destruct l; simpl in *; [ lia | discriminate ]).
  destruct (exists_last Hne) as [middle [y ->]].
  exists middle. rewrite length_app. simpl.
  replace (length middle + 1 - 0)%nat with (S (length middle)) by lia.
  simpl. rewrite app_nth2 by lia.
  replace (length middle - length middle)%nat with 0%nat by lia.
  reflexivity.
Qed.

Lemma coil_point_start (anchor axis normal : np.ndarray) (c : Z) (a : R) :
  coil_point anchor axis normal c a 0 = anchor.
Proof.
  unfold coil_point.
  replace (2 * PI * IZR c * 0) with 0 by ring. rewrite sin_0.
  destruct anchor as [a0 a1 a2]. cbn [np.item0 np.item1 np.item2].
  f_equal; ring.
Qed.

Lemma coil_point_end (anchor far normal : np.ndarray) (c : Z) (a : R) :
  coil_point anchor (far - anchor)%np normal c a 1 = far.
Proof.
  unfold coil_point. rewrite sin_whole_turns.
  destruct anchor as [a0 a1 a2], far as [f0 f1 f2].
  cbn [np.subtract np.item0 np.item1 np.item2].
  f_equal; ring.
Qed.

Lemma norm2_RIGHT : np.norm2 RIGHT = 1.
Proof.
  unfold np.norm2, RIGHT, manim.RIGHT. cbn [np.item0 np.item1].
  replace (1 * 1 + 0 * 0) with 1 by ring. apply sqrt_1.
Qed.

(* ------------------------------------------------------------------ *)
(** *** Claims about the curve synthesizer *)

(** C4 (as the code has it).  One run of the curve synthesizer yields
    [max(4c, 8)] points; the [i]-th is
    [anchor + axis * t + normal * a * sin(2 pi c t)] at the [i]-th of that
    many parameter values spread evenly over [0, 1].  When the two points
    differ on the drawing plane, [axis = far - anchor] and [normal] is the
    in-plane perpendicular of [axis / |axis|]; when they coincide there, the
    axis is [RIGHT] and the normal is [UP].  The list [_redraw_spring] hands
    to the spring is this function of the two anchor points and the style,
    whatever the spring held before. *)
Theorem curve_synthesizer_samples :
  forall (anchor far : np.ndarray) (style : SpringStyle),
  exists pts : list np.ndarray,
    spring_points anchor far style = Ok pts /\
    length pts = Z.to_nat (Z.max (4 * coils style) 8) /\
    (forall (i : nat) (d : np.ndarray),
        (i < length pts)%nat ->
        nth i pts d =
        coil_point anchor (drawn_axis anchor far) (drawn_normal anchor far)
          (coils style) (amplitude style) (uniform_sample (length pts) i)) /\
    (~ degenerate anchor far ->
       drawn_axis anchor far = (far - anchor)%np /\
       drawn_normal anchor far = planar_normal (far - anchor)%np) /\
    (degenerate anchor far ->
       drawn_axis anchor far = RIGHT /\ drawn_normal anchor far = UP) /\
    (forall o : SpringBlockOscillator,
        _get_anchor_point o = anchor ->
        _block_anchor_point o = far ->
        _spring_style o = style ->
        _redraw_spring o =
        Ok (set_spring (manim.set_points_smoothly pts (spring o)) o)).
Proof.
  intros anchor far style.
  eexists. split; [ apply spring_points_closed_form | ].
  assert (Hlen : length
            (map (coil_point anchor (drawn_axis anchor far)
                    (drawn_normal anchor far) (coils style) (amplitude style))
                 (np.linspace 0 1 (Z.max (4 * coils style) 8))) =
          Z.to_nat (Z.max (4 * coils style) 8))
    by now rewrite length_map, linspace_length.
  split; [ exact Hlen | ].
  split.
  { intros i d Hi. rewrite Hlen in *. apply closed_form_nth; [ lia | exact Hi ]. }
  split; [ apply drawn_nondegenerate | ].
  split; [ apply drawn_degenerate | ].
  intros o Ha Hb Hs. unfold _redraw_spring.
  rewrite Ha, Hb, Hs, spring_points_closed_form. reflexivity.
Qed.


(** C6.  When the anchor point and the far point coincide, the synthesizer
    raises nothing, its division included: it draws along [RIGHT], an axis
    of length one, and returns a sequence that is not empty. *)
Theorem zero_length_axis_is_safe :
  forall (p : np.ndarray) (style : SpringStyle),
  exists pts : list np.ndarray,
    spring_points p p style = Ok pts /\
    pts <> [] /\
    np.norm2 RIGHT = 1 /\
    np.divide RIGHT (np.norm2 RIGHT) = Ok RIGHT /\
    forall (i : nat) (d : np.ndarray),
      (i < length pts)%nat ->
      nth i pts d =
      coil_point p RIGHT UP (coils style) (amplitude style)
        (uniform_sample (length pts) i).
Proof.
  intros p style.
  assert (Hd : degenerate p p) by (split; reflexivity).
  eexists. split; [ now apply spring_points_degenerate | ].
  assert (Hlen : length
            (map (coil_point p RIGHT UP (coils style) (amplitude style))
                 (np.linspace 0 1 (Z.max (4 * coils style) 8))) =
          Z.to_nat (Z.max (4 * coils style) 8))
    by now rewrite length_map, linspace_length.
  pose proof (resolution_to_nat (coils style)) as Hres.
  split.
  { intros E. rewrite E in Hlen. simpl in Hlen. lia. }
  split; [ apply norm2_RIGHT | ].
  split.
  { rewrite norm2_RIGHT. unfold np.divide.
    destruct (Req_dec_T 1 0) as [E | _]; [ lra | ].
    unfold np.divide_lit, RIGHT, manim.RIGHT. cbn [np.item0 np.item1 np.item2].
    do 2 f_equal; field. }
  intros i d Hi. rewrite Hlen in *. apply closed_form_nth; [ lia | exact Hi ].
Qed.


(** C4 as worded fails where the two points coincide: with no amplitude the
    specified point stays on the anchor for every [t], while the last point
    the code emits lies one unit to its right. *)
Lemma curve_synthesizer_coincident_points :
  exists pts : list np.ndarray,
    spring_points (np.array 0 0 0) (np.array 0 0 0) (mkSpringStyle 1 0 4 None) =
    Ok pts /\
    nth 7 pts (np.array 0 0 0) = np.array 1 0 0 /\
    specified_point (np.array 0 0 0) (np.array 0 0 0) (mkSpringStyle 1 0 4 None)
      (uniform_sample (length pts) 7) = np.array 0 0 0 /\
    nth 7 pts (np.array 0 0 0) <>
    specified_point (np.array 0 0 0) (np.array 0 0 0) (mkSpringStyle 1 0 4 None)
      (uniform_sample (length pts) 7).
Proof.
  eexists. split.
  { apply spring_points_degenerate. split; reflexivity. }
  cbn [coils amplitude].
  assert (Hlen : length
            (map (coil_point (np.array 0 0 0) RIGHT UP 1 0)
                 (np.linspace 0 1 (Z.max (4 * 1) 8))) = 8%nat)
    by (rewrite length_map, linspace_length; reflexivity).
  rewrite Hlen.
  assert (Ht : uniform_sample 8 7 = 1) by (apply (uniform_sample_last 8); lia).
  rewrite Ht.
  assert (Hcode : nth 7 (map (coil_point (np.array 0 0 0) RIGHT UP 1 0)
                           (np.linspace 0 1 (Z.max (4 * 1) 8))) (np.array 0 0 0) =
                  np.array 1 0 0).
  { rewrite closed_form_nth by (cbn; lia).
    change (Z.to_nat (Z.max (4 * 1) 8)) with 8%nat. rewrite Ht.
    unfold coil_point, RIGHT, UP, manim.RIGHT, manim.UP.
    cbn [np.item0 np.item1 np.item2]. f_equal; ring. }
  assert (Hspec : specified_point (np.array 0 0 0) (np.array 0 0 0)
                    (mkSpringStyle 1 0 4 None) 1 = np.array 0 0 0).
  { unfold specified_point, coil_point, planar_normal, np.subtract.
    cbn [np.item0 np.item1 np.item2 coils amplitude]. f_equal; ring. }
  rewrite Hcode, Hspec.
  repeat split.
  intros E. apply (f_equal np.item0) in E. cbn in E. lra.
Qed.

(* ================================================================== *)
(** ** The lifecycle *)

Lemma create_joint_unattached (w : World) :
  _spacescene (self w) = None -> _create_joint w = (Ok tt, w).
Proof.
  intros H. unfold _create_joint, bind, get_self. cbn. now rewrite H.
Qed.

Lemma create_joint_no_body (w : World) :
  manim.body (block (self w)) = None -> _create_joint w = (Ok tt, w).
Proof.
  intros H. unfold _create_joint, bind, get_self. cbn. rewrite H.
  now destruct (_spacescene (self w)).
Qed.

Lemma create_joint_idempotent (w : World) (joint : pymunk.DampedSpring) :
  spring_joint (self w) = Some joint -> _create_joint w = (Ok tt, w).
Proof.
  intros H. unfold _create_joint, bind, get_self. cbn. rewrite H.
  destruct (_spacescene (self w)); [ | reflexivity ].
  now destruct (manim.body (block (self w))).
Qed.

Lemma create_joint_creates (w : World) (scene : nat)
    (block_body : pymunk.Body) (anchor_body : pymunk.BodyRef) :
  _spacescene (self w) = Some scene ->
  manim.body (block (self w)) = Some block_body ->
  manim.line_body (anchor (self w)) = Some anchor_body ->
  spring_joint (self w) = None ->
  _create_joint w =
  (Ok tt, register_joint scene (new_joint w anchor_body block_body) w).
Proof.
  intros Hs Hb Ha Hj. unfold _create_joint, bind, get_self. cbn.
  rewrite Hs, Hb, Hj, Ha. reflexivity.
Qed.

Lemma with_block_body_bound (f : pymunk.Body -> pymunk.Body) (w : World)
    (body : pymunk.Body) :
  manim.body (block (self w)) = Some body ->
  with_block_body f w = (Ok tt, put_block_body (f body) w).
Proof.
  intros H. unfold with_block_body, bind, get_self. cbn. now rewrite H.
Qed.

Lemma with_block_body_unbound (f : pymunk.Body -> pymunk.Body) (w : World) :
  manim.body (block (self w)) = None ->
  with_block_body f w = (Raise (AttributeError "body"), w).
Proof.
  intros H. unfold with_block_body, bind, get_self. cbn. now rewrite H.
Qed.

Lemma put_block_body_body (body : pymunk.Body) (w : World) :
  manim.body (block (self (put_block_body body w))) = Some body.
Proof. reflexivity. Qed.

Lemma put_block_body_twice (b1 b2 : pymunk.Body) (w : World) :
  put_block_body b2 (put_block_body b1 w) = put_block_body b2 w.
Proof. reflexivity. Qed.

Lemma create_joint_attached (w : World) :
  attached (self w) ->
  exists w1,
    _create_joint w = (Ok tt, w1) /\
    spring_joint (self w1) <> None /\
    _spacescene (self w1) = _spacescene (self w) /\
    block (self w1) = block (self w) /\
    anchor (self w1) = anchor (self w) /\
    rest_length (self w1) = rest_length (self w) /\
    block_width (self w1) = block_width (self w).
Proof.
  intros (Hs & Hb & Ha).
  destruct (spring_joint (self w)) as [joint | ] eqn:Hj.
  - exists w. rewrite (create_joint_idempotent w joint Hj).
    rewrite Hj. repeat split. discriminate.
  - destruct (_spacescene (self w)) as [scene | ] eqn:Es; [ | congruence ].
    destruct (manim.body (block (self w))) as [body | ] eqn:Eb; [ | congruence ].
    destruct (manim.line_body (anchor (self w))) as [ab | ] eqn:Ea;
      [ | congruence ].
    eexists. rewrite (create_joint_creates w scene body ab Es Eb Ea Hj).
    cbn. repeat split; try assumption. discriminate.
Qed.

Lemma start_oscillation_attached (d v : R) (w : World) (body : pymunk.Body) :
  attached (self w) ->
  manim.body (block (self w)) = Some body ->
  exists w1,
    _create_joint w = (Ok tt, w1) /\
    spring_joint (self w1) <> None /\
    _spacescene (self w1) = _spacescene (self w) /\
    start_oscillation d v w =
    (Ok tt, put_block_body (started_body (self w) d v body) w1).
Proof.
  intros Hatt Hbody.
  destruct (create_joint_attached w Hatt)
    as (w1 & Hc & Hj & Hs & Hb & Ha & Hr & Hw).
  exists w1. split; [ exact Hc | ]. split; [ exact Hj | ].
  split; [ exact Hs | ].
  destruct Hatt as (Hsc & _ & _).
  unfold start_oscillation. unfold bind at 1. unfold get_self at 1.
  destruct (_spacescene (self w)) as [scene | ]; [ | congruence ].
  unfold bind at 1. rewrite Hc.
  unfold bind at 1. unfold get_self at 1.
  assert (Hb1 : manim.body (block (self w1)) = Some body) by now rewrite Hb.
  unfold bind.
  rewrite (with_block_body_bound _ w1 body Hb1).
  rewrite (with_block_body_bound _ _ _ (put_block_body_body _ _)).
  rewrite (with_block_body_bound _ _ _ (put_block_body_body _ _)).
  rewrite (with_block_body_bound _ _ _ (put_block_body_body _ _)).
  rewrite (with_block_body_bound _ _ _ (put_block_body_body _ _)).
  rewrite !put_block_body_twice.
  unfold started_body, _get_anchor_point. rewrite Ha, Hr, Hw. reflexivity.
Qed.

(* ------------------------------------------------------------------ *)
(** *** Claims about the state injector *)

(** C3.  On an oscillator that has been attached, one call of
    [start_oscillation(d, v)] returns with the body at the rest position
    (the anchor point moved right by the rest length and half the block's
    width) shifted by [d] along the same axis, with linear velocity [(v, 0)],
    no angular velocity, no rotation, and awake. *)
Theorem start_sets_initial_condition :
  forall (d v : R) (w : World),
    attached (self w) ->
    exists (w' : World) (body : pymunk.Body),
      start_oscillation d v w = (Ok tt, w') /\
      manim.body (block (self w')) = Some body /\
      pymunk.position body =
        pymunk.mkVec2d (pymunk.x (rest_center (self w)) + d)
                       (pymunk.y (rest_center (self w))) /\
      pymunk.velocity body = pymunk.mkVec2d v 0 /\
      pymunk.angular_velocity body = 0 /\
      pymunk.angle body = 0 /\
      pymunk.is_sleeping body = false.
Proof.
  intros d v w Hatt.
  destruct (manim.body (block (self w))) as [body | ] eqn:Hb;
    [ | destruct Hatt as (_ & N & _); congruence ].
  destruct (start_oscillation_attached d v w body Hatt Hb)
    as (w1 & _ & _ & _ & Hstart).
  exists (put_block_body (started_body (self w) d v body) w1),
         (started_body (self w) d v body).
  split; [ exact Hstart | ]. split; [ reflexivity | ].
  repeat split.
  unfold started_body, rest_center, RIGHT, manim.RIGHT, np.add, np.multiply.
  cbn [pymunk.position pymunk.activate pymunk.set_angle
       pymunk.set_angular_velocity pymunk.set_velocity pymunk.set_position
       np.item0 np.item1 np.item2 pymunk.x pymunk.y].
  f_equal; ring.
Qed.

(** C8.  Before [attach_to_scene], [start_oscillation] raises a
    [RuntimeError] and leaves the whole heap as it found it. *)
Theorem start_before_attach_fails :
  forall (d v : R) (w : World),
    _spacescene (self w) = None ->
    start_oscillation d v w =
    (Raise (RuntimeError "attach_to_scene must be called before starting motion"),
     w).
Proof.
  intros d v w H. unfold start_oscillation, bind, get_self. cbn.
  now rewrite H.
Qed.


(* ------------------------------------------------------------------ *)
(** *** Claim about the anchor resolver *)

(** C10 (as the code has it).  When the block's body is unrotated and its
    position, read as a point of the plane [z = 0], is the block's drawn
    centre, the bound path of [_block_anchor_point] and its unbound path
    return the same point: the drawn centre moved left by half the block's
    width. *)
Theorem anchor_resolver_continuity :
  forall (o : SpringBlockOscillator) (body : pymunk.Body),
    manim.body (block o) = Some body ->
    pymunk.angle body = 0 ->
    np.array (pymunk.x (pymunk.position body)) (pymunk.y (pymunk.position body)) 0
    = manim.get_center (block o) ->
    _block_anchor_point o = _block_anchor_point (unbound o) /\
    _block_anchor_point o =
    np.array (np.item0 (manim.get_center (block o)) - block_width o / 2)
             (np.item1 (manim.get_center (block o)))
             (np.item2 (manim.get_center (block o))).
Proof.
  intros o body Hb Hangle Hpos.
  unfold _block_anchor_point, unbound.
  cbn [block set_block manim.body manim.set_body manim.get_center manim.center
       block_width].
  rewrite Hb, Hangle. unfold manim.get_center in *. rewrite <- Hpos.
  unfold pymunk.rotated, pymunk.vadd, _block_local_anchor, LEFT, manim.LEFT,
    np.add, np.multiply, np.divide_lit.
  rewrite cos_0, sin_0.
  cbn [pymunk.x pymunk.y np.item0 np.item1 np.item2].
  split; f_equal; field.
Qed.

(** Off the drawing plane the two paths part: the bound path always answers
    in the plane [z = 0], the unbound one at the height of the drawn
    centre. *)
Lemma anchor_resolver_heights (o : SpringBlockOscillator) (body : pymunk.Body) :
  manim.body (block o) = Some body ->
  np.item2 (_block_anchor_point o) = 0 /\
  np.item2 (_block_anchor_point (unbound o)) =
  np.item2 (manim.get_center (block o)).
Proof.
  intros Hb. unfold _block_anchor_point, unbound.
  cbn [block set_block manim.body manim.set_body manim.get_center manim.center
       block_width].
  rewrite Hb. split; [ reflexivity | ].
  unfold LEFT, manim.LEFT, np.add, np.multiply, np.divide_lit, manim.get_center.
  cbn [np.item0 np.item1 np.item2]. field.
Qed.

(* ------------------------------------------------------------------ *)
(** *** [attach_to_scene] *)

Lemma add_body_constraints (i : nat) (s : pymunk.Space) :
  pymunk.constraints (pymunk.add_body i s) = pymunk.constraints s.
Proof.
  unfold pymunk.add_body. now destruct (existsb (Nat.eqb i) (pymunk.bodies s)).
Qed.

Lemma modify_space_constraints (scene : nat)
    (f : pymunk.Space -> pymunk.Space) (w : World) :
  (forall s, pymunk.constraints (f s) = pymunk.constraints s) ->
  forall r, active_constraints (snd (modify_space scene f w)) r =
            active_constraints w r.
Proof.
  intros Hf r. unfold active_constraints, modify_space. cbn.
  destruct (Nat.eqb r scene); [ apply Hf | reflexivity ].
Qed.

Lemma density_never_raises (mass area : R) (w : World) :
  exists density,
    (if Req_dec_T area 0 then ret 1 else lift (truediv mass area)) w =
    (Ok density, w).
Proof.
  destruct (Req_dec_T area 0) as [E | N].
  - now exists 1.
  - exists (mass / area). unfold lift, truediv.
    now destruct (Req_dec_T area 0).
Qed.

(** [attach_to_scene] is a preparation that always returns, followed by
    [_create_joint]: in the heap [w0] the preparation leaves, the oscillator
    refers to the scene, both shapes are bound, and the recorded constraint
    and every simulation's constraints are as before. *)
Lemma attach_to_scene_prepares (scene : nat) (w : World) :
  exists w0,
    attach_to_scene scene w = _create_joint w0 /\
    _spacescene (self w0) = Some scene /\
    manim.line_body (anchor (self w0)) = Some (pymunk.static_body scene) /\
    manim.body (block (self w0)) <> None /\
    spring_joint (self w0) = spring_joint (self w) /\
    (forall r, active_constraints w0 r = active_constraints w r) /\
    config (self w0) = config (self w).
Proof.
  unfold attach_to_scene.
  unfold bind at 1. cbn [modify_self].
  unfold bind at 1. cbn [get_self self].
  unfold bind at 1. cbn [make_static_body ret].
  unfold bind at 1. cbn [modify_self self].
  unfold bind at 1.
  match goal with
  | |- context [ (if Req_dec_T ?a 0 then ret 1 else lift (truediv ?m ?a)) ?w1 ] =>
      destruct (density_never_raises m a w1) as [density ->]
  end.
  unfold bind at 1.
  destruct (manim.body (block (self w))) as [body | ] eqn:Hb.
  - unfold make_rigid_body. cbn [block set_spacescene]. rewrite Hb.
    unfold bind at 1. cbn [modify_space ret].
    unfold bind at 1. cbn [modify_self self].
    eexists. split; [ reflexivity | ].
    cbn. rewrite Hb. repeat split; try discriminate.
    intros r. unfold active_constraints. cbn.
    destruct (Nat.eqb r scene); [ apply add_body_constraints | reflexivity ].
  - unfold make_rigid_body. cbn [block set_spacescene]. rewrite Hb.
    unfold bind at 1. cbn [fresh].
    unfold bind at 1. cbn [modify_space ret].
    unfold bind at 1. cbn [modify_self self].
    eexists. split; [ reflexivity | ].
    cbn. repeat split; try discriminate.
    intros r. unfold active_constraints. cbn.
    destruct (Nat.eqb r scene); [ apply add_body_constraints | reflexivity ].
Qed.

Lemma register_joint_active_same (scene : nat) (joint : pymunk.DampedSpring)
    (w : World) :
  active_constraints (register_joint scene joint w) scene =
  active_constraints w scene ++ [joint].
Proof.
  unfold active_constraints, register_joint. cbn. now rewrite Nat.eqb_refl.
Qed.

Lemma register_joint_active_other (scene r : nat)
    (joint : pymunk.DampedSpring) (w : World) :
  r <> scene ->
  active_constraints (register_joint scene joint w) r = active_constraints w r.
Proof.
  intros N. unfold active_constraints, register_joint. cbn.
  apply Nat.eqb_neq in N. now rewrite N.
Qed.

(** What [attach_to_scene] does to a fresh oscillator. *)
Lemma attach_to_scene_unattached (scene : nat) (w : World) :
  unattached (self w) ->
  exists (w' : World) (joint : pymunk.DampedSpring),
    attach_to_scene scene w = (Ok tt, w') /\
    attached (self w') /\
    _spacescene (self w') = Some scene /\
    spring_joint (self w') = Some joint /\
    active_constraints w' scene = active_constraints w scene ++ [joint] /\
    pymunk.rest_length joint = rest_length (self w) /\
    pymunk.stiffness joint = stiffness (self w) /\
    pymunk.damping joint = damping (self w).
Proof.
  intros (Hs & Hj & Hb & Ha).
  destruct (attach_to_scene_prepares scene w)
    as (w0 & -> & Hs0 & Ha0 & Hb0 & Hj0 & Hact & Hcfg).
  unfold config in Hcfg. injection Hcfg as Hr Hk Hd _ _ _.
  destruct (manim.body (block (self w0))) as [body | ] eqn:Eb; [ | congruence ].
  rewrite Hj in Hj0.
  rewrite (create_joint_creates w0 scene body _ Hs0 Eb Ha0 Hj0).
  eexists. eexists. split; [ reflexivity | ].
  split.
  { unfold attached. cbn. rewrite Hs0, Eb, Ha0. repeat split; discriminate. }
  split; [ exact Hs0 | ].
  split; [ reflexivity | ].
  split; [ now rewrite register_joint_active_same, Hact | ].
  cbn. auto.
Qed.

(* ------------------------------------------------------------------ *)
(** *** The lifecycle invariant *)

Lemma invariant_initial (w : World) : initial w -> lifecycle_invariant w.
Proof.
  intros ((Hs & Hj & _ & _) & Hact). split.
  - intros N. congruence.
  - now rewrite Hj.
Qed.

Lemma invariant_put_block_body (body : pymunk.Body) (w : World) :
  lifecycle_invariant w -> lifecycle_invariant (put_block_body body w).
Proof.
  intros [Ha Hj]. split.
  - cbn. intros N. destruct (Ha N) as (? & ? & ?).
    repeat split; try assumption. discriminate.
  - exact Hj.
Qed.

Lemma invariant_with_block_body (f : pymunk.Body -> pymunk.Body) (w : World) :
  lifecycle_invariant w -> lifecycle_invariant (snd (with_block_body f w)).
Proof.
  intros Hinv.
  destruct (manim.body (block (self w))) as [body | ] eqn:Hb.
  - rewrite (with_block_body_bound f w body Hb).
    now apply invariant_put_block_body.
  - now rewrite (with_block_body_unbound f w Hb).
Qed.

(** [_create_joint] either leaves the heap alone or registers one new
    constraint where none was recorded. *)
Lemma create_joint_cases (w : World) :
  snd (_create_joint w) = w \/
  exists scene block_body anchor_body,
    _spacescene (self w) = Some scene /\
    spring_joint (self w) = None /\
    _create_joint w =
    (Ok tt, register_joint scene (new_joint w anchor_body block_body) w).
Proof.
  destruct (_spacescene (self w)) as [scene | ] eqn:Hs;
    [ | left; now rewrite create_joint_unattached ].
  destruct (manim.body (block (self w))) as [body | ] eqn:Hb;
    [ | left; now rewrite create_joint_no_body ].
  destruct (spring_joint (self w)) as [joint | ] eqn:Hj;
    [ left; now rewrite (create_joint_idempotent w joint) | ].
  destruct (manim.line_body (anchor (self w))) as [ab | ] eqn:Ha.
  - right. exists scene, body, ab. repeat split.
    now apply create_joint_creates.
  - left. unfold _create_joint, bind, get_self. cbn.
    now rewrite Hs, Hb, Hj, Ha.
Qed.

Lemma invariant_create_joint (w : World) :
  lifecycle_invariant w -> lifecycle_invariant (snd (_create_joint w)).
Proof.
  intros Hinv.
  destruct (create_joint_cases w)
    as [-> | (scene & body & ab & Hs & Hj & ->)]; [ exact Hinv | ].
  destruct Hinv as [Ha Hact]. rewrite Hj in Hact. split.
  - cbn. intros _. apply Ha. congruence.
  - cbn [snd register_joint self set_spring_joint spring_joint].
    exists scene. split.
    + now rewrite register_joint_active_same, Hact.
    + intros r N. now rewrite register_joint_active_other, Hact.
Qed.

Lemma invariant_attach (scene : nat) (w : World) :
  lifecycle_invariant w -> lifecycle_invariant (snd (attach_to_scene scene w)).
Proof.
  intros [_ Hact].
  destruct (attach_to_scene_prepares scene w)
    as (w0 & -> & Hs0 & Ha0 & Hb0 & Hj0 & Hact0 & _).
  apply invariant_create_joint. split.
  - intros _. unfold attached. rewrite Hs0, Ha0.
    repeat split; try discriminate. exact Hb0.
  - rewrite Hj0. destruct (spring_joint (self w)) as [joint | ].
    + destruct Hact as (r0 & H1 & H2). exists r0.
      split; [ now rewrite Hact0 | ].
      intros r N. rewrite Hact0. now apply H2.
    + intros r. now rewrite Hact0.
Qed.

(** A step that hands the heap on as it found it. *)
Ltac unchanged :=
  let w := fresh "w" in
  let H := fresh "H" in
  intros w H; exact H.

Lemma maintains_bind {A B} (P : World -> Prop) (m : M A) (k : A -> M B) :
  maintains P m -> (forall a, maintains P (k a)) -> maintains P (bind m k).
Proof.
  intros Hm Hk w Hw. unfold bind. specialize (Hm w Hw).
  destruct (m w) as [[e | a] w']; cbn in *; [ exact Hm | now apply Hk ].
Qed.

Lemma maintains_pure {A} (P : World -> Prop) (r : Result A) :
  maintains P (lift r).
Proof. intros w Hw. exact Hw. Qed.

Lemma invariant_start (d v : R) :
  maintains lifecycle_invariant (start_oscillation d v).
Proof.
  unfold start_oscillation.
  apply maintains_bind; [ unchanged | intros o ].
  destruct (_spacescene o); [ | unchanged ].
  apply maintains_bind; [ exact invariant_create_joint | intros _ ].
  apply maintains_bind; [ unchanged | intros o' ].
  repeat (apply maintains_bind;
          [ intros w; apply invariant_with_block_body | intros _ ]).
  intros w. apply invariant_with_block_body.
Qed.

Lemma invariant_reset : maintains lifecycle_invariant reset_displacement.
Proof.
  unfold reset_displacement.
  apply maintains_bind; [ unchanged | intros o ].
  destruct (manim.body (block o)); [ | unchanged ].
  repeat (apply maintains_bind;
          [ intros w; apply invariant_with_block_body | intros _ ]).
  intros w. apply invariant_with_block_body.
Qed.

Lemma redraw_returns (w : World) :
  exists pts,
    redraw w =
    (Ok tt,
     mkWorld (set_spring (manim.set_points_smoothly pts (spring (self w))) (self w))
       (scenes w) (next_id w)).
Proof.
  unfold redraw, bind, get_self, lift, _redraw_spring.
  rewrite spring_points_closed_form. cbn. eexists. reflexivity.
Qed.

Lemma invariant_redraw : maintains lifecycle_invariant redraw.
Proof.
  intros w Hw. destruct (redraw_returns w) as [pts ->]. exact Hw.
Qed.

Lemma maintains_bind_at {A B} (P : World -> Prop) (m : M A) (k : A -> M B)
    (w : World) :
  P (snd (m w)) -> (forall a, maintains P (k a)) -> P (snd (bind m k w)).
Proof.
  intros Hm Hk. unfold bind.
  destruct (m w) as [[e | a] w']; cbn in *; [ exact Hm | now apply Hk ].
Qed.

Lemma registered_singleton (joint : pymunk.DampedSpring) (s : pymunk.Space) :
  pymunk.constraints s = [joint] ->
  pymunk.remove joint s = Ok (pymunk.mkSpace (pymunk.bodies s) []).
Proof.
  intros E. unfold pymunk.remove, pymunk.registered. rewrite E. cbn.
  now rewrite Nat.eqb_refl.
Qed.

Lemma registered_empty (joint : pymunk.DampedSpring) (s : pymunk.Space) :
  pymunk.constraints s = [] ->
  pymunk.remove joint s =
  Raise (AssertionError "constraint not in space, already removed?").
Proof.
  intros E. unfold pymunk.remove, pymunk.registered. now rewrite E.
Qed.

Lemma invariant_stop : maintains lifecycle_invariant stop_oscillation.
Proof.
  intros w Hw. unfold stop_oscillation.
  unfold bind at 1. cbn [get_self].
  destruct (_spacescene (self w)) as [scene | ] eqn:Hs; [ | exact Hw ].
  apply maintains_bind_at.
  - destruct (spring_joint (self w)) as [joint | ] eqn:Hj; [ | exact Hw ].
    destruct Hw as [Ha Hact]. rewrite Hj in Hact.
    destruct Hact as (r0 & H1 & H2).
    unfold bind, try_modify_space.
    destruct (Nat.eq_dec scene r0) as [-> | N].
    + rewrite (registered_singleton joint _ H1). cbn. split.
      * cbn. exact Ha.
      * cbn. intros r. unfold active_constraints. cbn.
        destruct (Nat.eqb r r0) eqn:E; [ reflexivity | ].
        apply Nat.eqb_neq in E. now apply H2.
    + rewrite (registered_empty joint _ (H2 scene N)). cbn. split.
      * exact Ha.
      * rewrite Hj. exists r0. now split.
  - intros _. apply maintains_bind; [ unchanged | intros o' ].
    destruct (manim.body (block o')); [ | unchanged ].
    intros w'. apply invariant_with_block_body.
Qed.

Lemma invariant_after (op : operation) (w : World) :
  lifecycle_invariant w -> lifecycle_invariant (after op w).
Proof.
  unfold after. destruct op; cbn [run].
  - apply invariant_attach.
  - apply invariant_start.
  - apply invariant_stop.
  - apply invariant_reset.
  - apply invariant_redraw.
Qed.

Lemma reachable_invariant (w : World) : reachable w -> lifecycle_invariant w.
Proof.
  induction 1 as [ w Hinit | w op _ IH ].
  - now apply invariant_initial.
  - now apply invariant_after.
Qed.

Lemma invariant_at_most_one (w : World) :
  lifecycle_invariant w -> at_most_one_constraint w.
Proof.
  intros [_ Hact]. unfold at_most_one_constraint.
  destruct (spring_joint (self w)) as [joint | ].
  - destruct Hact as (r0 & H1 & H2). split.
    + intros r. destruct (Nat.eq_dec r r0) as [-> | N].
      * rewrite H1. cbn. lia.
      * rewrite (H2 r N). cbn. lia.
    + intros r1 r2 j1 j2 In1 In2.
      destruct (Nat.eq_dec r1 r0) as [-> | N1];
        [ | rewrite (H2 r1 N1) in In1; contradiction ].
      destruct (Nat.eq_dec r2 r0) as [-> | N2];
        [ | rewrite (H2 r2 N2) in In2; contradiction ].
      rewrite H1 in In1, In2. cbn in In1, In2.
      destruct In1 as [<- | []], In2 as [<- | []]. now split.
  - split.
    + intros r. rewrite Hact. cbn. lia.
    + intros r1 r2 j1 j2 In1. rewrite Hact in In1. contradiction.
Qed.

Lemma invariant_exactly_one (w : World) :
  lifecycle_invariant w -> spring_joint (self w) <> None ->
  exactly_one_constraint w.
Proof.
  intros [_ Hact] N. unfold exactly_one_constraint.
  destruct (spring_joint (self w)) as [joint | ]; [ | congruence ].
  destruct Hact as (r0 & H1 & H2). exists r0, joint. now repeat split.
Qed.

Lemma start_activates (d v : R) (w : World) :
  lifecycle_invariant w -> _spacescene (self w) <> None ->
  fst (run (Start d v) w) = Ok tt /\
  spring_joint (self (after (Start d v) w)) <> None /\
  _spacescene (self (after (Start d v) w)) = _spacescene (self w).
Proof.
  intros [Ha _] Hs. specialize (Ha Hs).
  destruct (manim.body (block (self w))) as [body | ] eqn:Hb;
    [ | destruct Ha as (_ & N & _); congruence ].
  destruct (start_oscillation_attached d v w body Ha Hb)
    as (w1 & _ & Hj & Hs1 & Hstart).
  unfold after. cbn [run]. rewrite Hstart. cbn. auto.
Qed.

(** Calls seen through a view of the oscillator that the block, the
    recorded constraint and the drawn spring do not enter. *)
Section Frame.

Context {T : Type}.
Variable view : SpringBlockOscillator -> T.
Hypothesis view_set_block : forall r o, view (set_block r o) = view o.
Hypothesis view_set_spring_joint :
  forall j o, view (set_spring_joint j o) = view o.
Hypothesis view_set_spring : forall m o, view (set_spring m o) = view o.

Lemma kept_with_block_body (t : T) (f : pymunk.Body -> pymunk.Body) :
  maintains (fun w => view (self w) = t) (with_block_body f).
Proof.
  intros w Hw.
  destruct (manim.body (block (self w))) as [body | ] eqn:Hb.
  - rewrite (with_block_body_bound f w body Hb). cbn.
    now rewrite view_set_block.
  - now rewrite (with_block_body_unbound f w Hb).
Qed.

Lemma kept_create_joint (t : T) :
  maintains (fun w => view (self w) = t) _create_joint.
Proof.
  intros w Hw.
  destruct (create_joint_cases w)
    as [-> | (scene & body & ab & _ & _ & ->)]; [ exact Hw | ].
  cbn. now rewrite view_set_spring_joint.
Qed.

Lemma kept_start (t : T) (d v : R) :
  maintains (fun w => view (self w) = t) (start_oscillation d v).
Proof.
  unfold start_oscillation.
  apply maintains_bind; [ unchanged | intros o ].
  destruct (_spacescene o); [ | unchanged ].
  apply maintains_bind; [ apply kept_create_joint | intros _ ].
  apply maintains_bind; [ unchanged | intros o' ].
  repeat (apply maintains_bind; [ apply kept_with_block_body | intros _ ]).
  apply kept_with_block_body.
Qed.

Lemma kept_stop (t : T) :
  maintains (fun w => view (self w) = t) stop_oscillation.
Proof.
  unfold stop_oscillation.
  apply maintains_bind; [ unchanged | intros o ].
  destruct (_spacescene o) as [scene | ]; [ | unchanged ].
  apply maintains_bind.
  - destruct (spring_joint o) as [joint | ]; [ | unchanged ].
    apply maintains_bind.
    + intros w Hw. unfold try_modify_space.
      now destruct (pymunk.remove joint (space (scenes w scene))).
    + intros _ w Hw. cbn. now rewrite view_set_spring_joint.
  - intros _. apply maintains_bind; [ unchanged | intros o' ].
    destruct (manim.body (block o')); [ | unchanged ].
    apply kept_with_block_body.
Qed.

Lemma kept_reset (t : T) :
  maintains (fun w => view (self w) = t) reset_displacement.
Proof.
  unfold reset_displacement.
  apply maintains_bind; [ unchanged | intros o ].
  destruct (manim.body (block o)); [ | unchanged ].
  repeat (apply maintains_bind; [ apply kept_with_block_body | intros _ ]).
  apply kept_with_block_body.
Qed.

Lemma kept_redraw (t : T) :
  maintains (fun w => view (self w) = t) redraw.
Proof.
  intros w Hw. destruct (redraw_returns w) as [pts ->]. cbn.
  now rewrite view_set_spring.
Qed.

End Frame.

Lemma stop_keeps_scene (w : World) :
  _spacescene (self (after Stop w)) = _spacescene (self w).
Proof.
  now apply (kept_stop _spacescene (fun _ _ => eq_refl) (fun _ _ => eq_refl)
               (_spacescene (self w)) w).
Qed.

(** No call changes the configuration: a constraint created again after a
    [stop] is built from the rest length, stiffness and damping the
    oscillator was constructed with. *)
Lemma config_kept (op : operation) (w : World) :
  config (self (after op w)) = config (self w).
Proof.
  unfold after. destruct op as [scene | d v | | | ]; cbn [run].
  - destruct (attach_to_scene_prepares scene w)
      as (w0 & -> & _ & _ & _ & _ & _ & <-).
    now apply (kept_create_joint config (fun _ _ => eq_refl)
                 (config (self w0)) w0).
  - now apply (kept_start config (fun _ _ => eq_refl) (fun _ _ => eq_refl)
                 (config (self w)) d v w).
  - now apply (kept_stop config (fun _ _ => eq_refl) (fun _ _ => eq_refl)
                 (config (self w)) w).
  - now apply (kept_reset config (fun _ _ => eq_refl) (config (self w)) w).
  - now apply (kept_redraw config (fun _ _ => eq_refl) (config (self w)) w).
Qed.

(* ------------------------------------------------------------------ *)
(** *** Claims about the constraint manager *)

(** C7.  In every heap the lifecycle can reach, at most one spring
    constraint is registered, over all simulations; [_create_joint] changes
    nothing while a constraint is recorded; and once the oscillator refers
    to a scene, [start] twice in a row, or [start], [stop], [start], leave
    exactly one constraint registered, the recorded one. *)
Theorem single_spring_constraint :
  forall w : World,
    reachable w ->
    at_most_one_constraint w /\
    (forall op, at_most_one_constraint (after op w)) /\
    (forall joint, spring_joint (self w) = Some joint ->
                   _create_joint w = (Ok tt, w)) /\
    (forall d1 v1 d2 v2,
        _spacescene (self w) <> None ->
        exactly_one_constraint (after (Start d2 v2) (after (Start d1 v1) w))) /\
    (forall d1 v1 d2 v2,
        _spacescene (self w) <> None ->
        exactly_one_constraint
          (after (Start d2 v2) (after Stop (after (Start d1 v1) w)))).
Proof.
  intros w Hreach. pose proof (reachable_invariant w Hreach) as Hinv.
  split; [ now apply invariant_at_most_one | ].
  split; [ intros op; now apply invariant_at_most_one, invariant_after | ].
  split; [ intros joint; apply create_joint_idempotent | ].
  split.
  - intros d1 v1 d2 v2 Hs.
    destruct (start_activates d1 v1 w Hinv Hs) as (_ & _ & Hs1).
    pose proof (invariant_after (Start d1 v1) w Hinv) as Hinv1.
    assert (Hs1' : _spacescene (self (after (Start d1 v1) w)) <> None)
      by now rewrite Hs1.
    destruct (start_activates d2 v2 _ Hinv1 Hs1') as (_ & Hj2 & _).
    apply invariant_exactly_one; [ now apply invariant_after | exact Hj2 ].
  - intros d1 v1 d2 v2 Hs.
    destruct (start_activates d1 v1 w Hinv Hs) as (_ & _ & Hs1).
    pose proof (invariant_after (Start d1 v1) w Hinv) as Hinv1.
    pose proof (invariant_after Stop _ Hinv1) as Hinv2.
    assert (Hs2 : _spacescene (self (after Stop (after (Start d1 v1) w))) <> None)
      by now rewrite stop_keeps_scene, Hs1.
    destruct (start_activates d2 v2 _ Hinv2 Hs2) as (_ & Hj3 & _).
    apply invariant_exactly_one; [ now apply invariant_after | exact Hj3 ].
Qed.

(** C2 (as the code has it).  [attach_to_scene] on a fresh oscillator
    returns with the oscillator attached and a spring constraint already
    active: it ends with [_create_joint], which builds a damped spring from
    the oscillator's rest length, stiffness and damping, registers it with
    the scene's simulation and records it.  A later [_create_joint], the
    one [start_oscillation] runs, changes nothing. *)
Theorem attach_activates_the_constraint :
  forall (scene : nat) (w : World),
    unattached (self w) ->
    exists (w' : World) (joint : pymunk.DampedSpring),
      attach_to_scene scene w = (Ok tt, w') /\
      attached (self w') /\
      _spacescene (self w') = Some scene /\
      spring_joint (self w') = Some joint /\
      active_constraints w' scene = active_constraints w scene ++ [joint] /\
      pymunk.rest_length joint = rest_length (self w) /\
      pymunk.stiffness joint = stiffness (self w) /\
      pymunk.damping joint = damping (self w) /\
      _create_joint w' = (Ok tt, w').
Proof.
  intros scene w Hun.
  destruct (attach_to_scene_unattached scene w Hun)
    as (w' & joint & H1 & H2 & H3 & H4 & H5 & H6 & H7 & H8).
  exists w', joint.
  do 8 (split; [ assumption | ]).
  now apply (create_joint_idempotent w' joint).
Qed.

(* ------------------------------------------------------------------ *)
(** *** The constructor *)

Lemma load_DOWN : load_global harmonic_globals "DOWN" = Raise (NameError "DOWN").
Proof. reflexivity. Qed.

(** C1.  Whatever its arguments, the constructor raises [NameError] for
    [DOWN]: the module binds [LEFT], [RIGHT] and [UP] and no [DOWN], so the
    second end of the anchor line cannot be evaluated and no instance is
    ever returned. *)
Theorem constructor_raises_NameError :
  forall args : InitArgs,
    SpringBlockOscillator_new args = Raise (NameError "DOWN") /\
    (forall o, SpringBlockOscillator_new args <> Ok o) /\
    lookup "LEFT" harmonic_globals = Some (py_array manim.LEFT) /\
    lookup "RIGHT" harmonic_globals = Some (py_array manim.RIGHT) /\
    lookup "UP" harmonic_globals = Some (py_array manim.UP) /\
    lookup "DOWN" harmonic_globals = None /\
    lookup "DOWN" builtins = None.
Proof.
  intros args.
  assert (E : SpringBlockOscillator_new args = Raise (NameError "DOWN")).
  { unfold SpringBlockOscillator_new, __init__.
    destruct (arg_block_size args) as [bw bh]. reflexivity. }
  split; [ exact E | ].
  split; [ intros o; rewrite E; discriminate | ].
  repeat split.
Qed.

(** With [DOWN] bound as well, the same constructor returns a fresh
    oscillator: the failure is the missing name and nothing else. *)
Lemma constructor_with_DOWN_bound (args : InitArgs) :
  exists o,
    __init__ (("DOWN", py_array manim.DOWN) :: harmonic_globals) args = Ok o /\
    unattached o /\
    rest_length o = arg_rest_length args /\
    block_width o = fst (arg_block_size args) /\
    _get_anchor_point o = arg_anchor_point args /\
    manim.get_center (block o) =
      (arg_anchor_point args
       + RIGHT * (arg_rest_length args + fst (arg_block_size args) / 2))%np.
Proof.
  unfold __init__. destruct (arg_block_size args) as [bw bh].
  cbn [load_global load_array lookup rbind String.eqb Ascii.eqb Bool.eqb
       harmonic_globals builtins].
  unfold _redraw_spring. rewrite spring_points_closed_form. cbn [rbind].
  eexists. split; [ reflexivity | ].
  split.
  { destruct (arg_animate_spring args); repeat split. }
  assert (Hanchor : forall p : np.ndarray,
             manim.point_from_proportion
               (manim.mkLine (p + manim.UP * (6 / 10))%np
                             (p + manim.DOWN * (6 / 10))%np None) (1 / 2) = p).
  { intros [p0 p1 p2].
    unfold manim.point_from_proportion, manim.UP, manim.DOWN, np.add,
      np.subtract, np.multiply.
    cbn [manim.line_start manim.line_end np.item0 np.item1 np.item2].
    f_equal; field. }
  destruct (arg_animate_spring args); cbn; unfold _get_anchor_point; cbn;
    rewrite Hanchor; repeat split.
Qed.

(* ================================================================== *)
(** ** Concrete heaps *)

Lemma world0_initial : initial world0.
Proof. split; [ repeat split | reflexivity ]. Qed.

Lemma attach_activates_the_constraint_witness :
  exists (w' : World) (joint : pymunk.DampedSpring),
    attach_to_scene 0 world0 = (Ok tt, w') /\
    attached (self w') /\
    _spacescene (self w') = Some 0%nat /\
    spring_joint (self w') = Some joint /\
    active_constraints w' 0 = active_constraints world0 0 ++ [joint] /\
    pymunk.rest_length joint = rest_length (self world0) /\
    pymunk.stiffness joint = stiffness (self world0) /\
    pymunk.damping joint = damping (self world0) /\
    _create_joint w' = (Ok tt, w').
Proof.
  apply (attach_activates_the_constraint 0 world0).
  repeat split.
Defined.

(** C2 as worded fails on the scenario's oscillator: after
    [attach_to_scene] a constraint is recorded and registered, before any
    [start_oscillation]. *)
Lemma attach_leaves_a_constraint_active :
  unattached (self world0) /\
  spring_joint (self (after (Attach 0) world0)) <> None /\
  exists joint,
    spring_joint (self (after (Attach 0) world0)) = Some joint /\
    active_constraints (after (Attach 0) world0) 0 = [joint].
Proof.
  assert (Hun : unattached (self world0)) by repeat split.
  destruct (attach_to_scene_unattached 0 world0 Hun)
    as (w' & joint & H1 & _ & _ & H4 & H5 & _).
  unfold after. cbn [run]. rewrite H1. cbn [snd].
  split; [ exact Hun | ].
  split; [ rewrite H4; discriminate | ].
  exists joint. split; [ exact H4 | exact H5 ].
Qed.

Lemma start_sets_initial_condition_witness :
  exists (w' : World) (body : pymunk.Body),
    start_oscillation 1 0 world_attached = (Ok tt, w') /\
    manim.body (block (self w')) = Some body /\
    pymunk.position body =
      pymunk.mkVec2d (pymunk.x (rest_center (self world_attached)) + 1)
                     (pymunk.y (rest_center (self world_attached))) /\
    pymunk.velocity body = pymunk.mkVec2d 0 0 /\
    pymunk.angular_velocity body = 0 /\
    pymunk.angle body = 0 /\
    pymunk.is_sleeping body = false.
Proof.
  apply (start_sets_initial_condition 1 0 world_attached).
  repeat split; discriminate.
Defined.

(** The scenario's numbers: the rest centre is at x = 2.9. *)
Lemma scenario_rest_center :
  rest_center (self world_attached) = pymunk.mkVec2d (29 / 10) 0.
Proof.
  unfold rest_center, _get_anchor_point, manim.point_from_proportion,
    np.add, np.subtract, np.multiply.
  cbn. f_equal; field.
Qed.

Lemma single_spring_constraint_witness :
  at_most_one_constraint (after (Attach 0) world0) /\
  (forall op, at_most_one_constraint (after op (after (Attach 0) world0))) /\
  (forall joint,
      spring_joint (self (after (Attach 0) world0)) = Some joint ->
      _create_joint (after (Attach 0) world0) =
      (Ok tt, after (Attach 0) world0)) /\
  (forall d1 v1 d2 v2,
      _spacescene (self (after (Attach 0) world0)) <> None ->
      exactly_one_constraint
        (after (Start d2 v2) (after (Start d1 v1) (after (Attach 0) world0)))) /\
  (forall d1 v1 d2 v2,
      _spacescene (self (after (Attach 0) world0)) <> None ->
      exactly_one_constraint
        (after (Start d2 v2)
           (after Stop (after (Start d1 v1) (after (Attach 0) world0))))).
Proof.
  apply (single_spring_constraint (after (Attach 0) world0)).
  apply reachable_after, reachable_initial.
  split; [ repeat split | reflexivity ].
Defined.

Lemma start_before_attach_fails_witness :
  start_oscillation 1 0 world_with_body =
  (Raise (RuntimeError "attach_to_scene must be called before starting motion"),
   world_with_body).
Proof.
  apply (start_before_attach_fails 1 0 world_with_body).
  reflexivity.
Defined.


Lemma anchor_resolver_continuity_witness :
  _block_anchor_point (self world_with_body) =
  _block_anchor_point (unbound (self world_with_body)) /\
  _block_anchor_point (self world_with_body) =
  np.array
    (np.item0 (manim.get_center (block (self world_with_body)))
     - block_width (self world_with_body) / 2)
    (np.item1 (manim.get_center (block (self world_with_body))))
    (np.item2 (manim.get_center (block (self world_with_body)))).
Proof.
  apply (anchor_resolver_continuity (self world_with_body) body0);
    reflexivity.
Defined.

(** C10 as worded fails off the drawing plane: the body is unrotated and at
    the drawn centre in both of its coordinates, yet the bound path answers
    at height 0 and the unbound path at height 1. *)
Lemma anchor_resolver_jump_off_plane :
  manim.body (block raised_oscillator) = Some body0 /\
  pymunk.angle body0 = 0 /\
  pymunk.x (pymunk.position body0) =
    np.item0 (manim.get_center (block raised_oscillator)) /\
  pymunk.y (pymunk.position body0) =
    np.item1 (manim.get_center (block raised_oscillator)) /\
  _block_anchor_point raised_oscillator <>
  _block_anchor_point (unbound raised_oscillator).
Proof.
  repeat split.
  intros E. apply (f_equal np.item2) in E.
  destruct (anchor_resolver_heights raised_oscillator body0 eq_refl)
    as [H0 H1].
  rewrite H0, H1 in E. cbn in E. lra.
Qed.


(* ------------------------------------------------------------------ *)
(** *** The scenario of the specification *)

Lemma start_on_recorded (d v : R) (w : World) (joint : pymunk.DampedSpring)
    (body : pymunk.Body) :
  attached (self w) ->
  spring_joint (self w) = Some joint ->
  manim.body (block (self w)) = Some body ->
  start_oscillation d v w =
  (Ok tt, put_block_body (started_body (self w) d v body) w).
Proof.
  intros Hatt Hj Hb.
  destruct (start_oscillation_attached d v w body Hatt Hb)
    as (w1 & Hc & _ & _ & ->).
  rewrite (create_joint_idempotent w joint Hj) in Hc.
  now injection Hc as <-.
Qed.

Lemma stop_deactivates (w : World) (scene : nat)
    (joint : pymunk.DampedSpring) (body : pymunk.Body) :
  _spacescene (self w) = Some scene ->
  spring_joint (self w) = Some joint ->
  active_constraints w scene = [joint] ->
  manim.body (block (self w)) = Some body ->
  exists w',
    stop_oscillation w = (Ok tt, w') /\
    spring_joint (self w') = None /\
    active_constraints w' scene = [] /\
    manim.body (block (self w')) = Some (pymunk.sleep body) /\
    _spacescene (self w') = Some scene /\
    manim.line_body (anchor (self w')) = manim.line_body (anchor (self w)).
Proof.
  intros Hs Hj Hact Hb.
  unfold stop_oscillation, bind, get_self. rewrite Hs, Hj.
  unfold try_modify_space. rewrite (registered_singleton joint _ Hact).
  cbn. rewrite Hb.
  unfold with_block_body, bind, get_self. cbn. rewrite Hb. cbn.
  eexists. split; [ reflexivity | ]. cbn.
  repeat split; try assumption.
  unfold active_constraints. cbn. now rewrite Nat.eqb_refl.
Qed.

Lemma started_body_position (o : SpringBlockOscillator) (d v : R)
    (body : pymunk.Body) :
  config o = config oscillator0 ->
  pymunk.position (started_body o d v body) = pymunk.mkVec2d (29 / 10 + d) 0.
Proof.
  unfold config. intros E. injection E as Hr _ _ Hw Hstart Hend.
  unfold started_body, _get_anchor_point, manim.point_from_proportion.
  rewrite Hr, Hw, Hstart, Hend.
  unfold RIGHT, manim.RIGHT, np.add, np.subtract, np.multiply. cbn.
  f_equal; field.
Qed.

(** Rest length 2.5, anchor at the origin, block 0.8 wide: [start(1, 0)]
    puts the body at x = 3.9; [stop] removes the constraint and puts the
    body to sleep; [start(0, 2)] puts the body at x = 2.9 with velocity 2,
    awake, and one constraint is registered again. *)
Lemma scenario :
  exists (w1 w2 w3 w4 : World) (b2 b4 : pymunk.Body),
    attach_to_scene 0 world0 = (Ok tt, w1) /\
    start_oscillation 1 0 w1 = (Ok tt, w2) /\
    manim.body (block (self w2)) = Some b2 /\
    pymunk.position b2 = pymunk.mkVec2d (39 / 10) 0 /\
    stop_oscillation w2 = (Ok tt, w3) /\
    spring_joint (self w3) = None /\
    active_constraints w3 0 = [] /\
    manim.body (block (self w3)) = Some (pymunk.sleep b2) /\
    start_oscillation 0 2 w3 = (Ok tt, w4) /\
    manim.body (block (self w4)) = Some b4 /\
    pymunk.position b4 = pymunk.mkVec2d (29 / 10) 0 /\
    pymunk.velocity b4 = pymunk.mkVec2d 2 0 /\
    pymunk.is_sleeping b4 = false /\
    exactly_one_constraint w4.
Proof.
  assert (Hun : unattached (self world0)) by repeat split.
  destruct (attach_to_scene_unattached 0 world0 Hun)
    as (w1 & joint & Hattach & Hatt1 & Hs1 & Hj1 & Hact1 & _).
  assert (Hw1 : w1 = after (Attach 0) world0)
    by (unfold after; cbn [run]; now rewrite Hattach).
  assert (Hcfg1 : config (self w1) = config oscillator0)
    by (rewrite Hw1; apply (config_kept (Attach 0) world0)).
  assert (Hinv1 : lifecycle_invariant w1)
    by (rewrite Hw1; apply invariant_after, invariant_initial, world0_initial).
  destruct (manim.body (block (self w1))) as [b1 | ] eqn:Hb1;
    [ | destruct Hatt1 as (_ & N & _); congruence ].
  (* start(1, 0) *)
  pose proof (start_on_recorded 1 0 w1 joint b1 Hatt1 Hj1 Hb1) as Hstart1.
  set (b2 := started_body (self w1) 1 0 b1) in *.
  set (w2 := put_block_body b2 w1) in *.
  (* stop *)
  destruct (stop_deactivates w2 0 joint b2 Hs1 Hj1 Hact1 eq_refl)
    as (w3 & Hstop & Hj3 & Hact3 & Hb3 & Hs3 & Ha3).
  assert (Hw3 : w3 = after Stop w2)
    by (unfold after; cbn [run]; now rewrite Hstop).
  assert (Hw2 : w2 = after (Start 1 0) w1)
    by (unfold after; cbn [run]; now rewrite Hstart1).
  assert (Hinv3 : lifecycle_invariant w3).
  { rewrite Hw3, Hw2. now do 2 apply invariant_after. }
  assert (Hcfg3 : config (self w3) = config oscillator0).
  { rewrite Hw3, config_kept, Hw2, config_kept. exact Hcfg1. }
  (* start(0, 2) *)
  assert (Hatt3 : attached (self w3)).
  { apply Hinv3. rewrite Hs3. discriminate. }
  destruct (start_oscillation_attached 0 2 w3 _ Hatt3 Hb3)
    as (w3' & _ & _ & _ & Hstart3).
  assert (Hs3' : _spacescene (self w3) <> None) by (rewrite Hs3; discriminate).
  destruct (start_activates 0 2 w3 Hinv3 Hs3') as (_ & Hj4 & _).
  exists w1, w2, w3, (after (Start 0 2) w3), b2,
    (started_body (self w3) 0 2 (pymunk.sleep b2)).
  split; [ exact Hattach | ].
  split; [ exact Hstart1 | ].
  split; [ reflexivity | ].
  split.
  { unfold b2. rewrite started_body_position by exact Hcfg1. f_equal. field. }
  split; [ exact Hstop | ].
  split; [ exact Hj3 | ].
  split; [ exact Hact3 | ].
  split; [ exact Hb3 | ].
  split.
  { unfold after. cbn [run]. rewrite Hstart3. reflexivity. }
  split.
  { unfold after. cbn [run]. rewrite Hstart3. reflexivity. }
  split.
  { rewrite started_body_position by exact Hcfg3. f_equal. field. }
  split; [ reflexivity | ].
  split; [ reflexivity | ].
  apply invariant_exactly_one; [ now apply invariant_after | exact Hj4 ].
Qed.

(* ------------------------------------------------------------------ *)
(** *** Small evaluations *)

Example default_resolution :
  Z.max (4 * coils SpringStyle_default) 8 = 48%Z.
Proof. reflexivity. Qed.

Example one_coil_resolution :
  Z.max (4 * coils (mkSpringStyle 1 0 4 None)) 8 = 8%Z.
Proof. reflexivity. Qed.

Example load_UP : load_array harmonic_globals "UP" = Ok manim.UP.
Proof. reflexivity. Qed.

Example load_max : load_global harmonic_globals "max" = Ok py_other.
Proof. reflexivity. Qed.

Example start_on_fresh_world :
  fst (start_oscillation 1 0 world0) =
  Raise (RuntimeError "attach_to_scene must be called before starting motion").
Proof. reflexivity. Qed.

Example stop_on_fresh_world : stop_oscillation world0 = (Ok tt, world0).
Proof. reflexivity. Qed.

Example reset_on_fresh_world : reset_displacement world0 = (Ok tt, world0).
Proof. reflexivity. Qed.

Example remove_twice (j : pymunk.DampedSpring) :
  pymunk.remove j (pymunk.mkSpace [] []) =
  Raise (AssertionError "constraint not in space, already removed?").
Proof. reflexivity. Qed.

(* ================================================================== *)
(** ** Further properties: the renderer helpers of _compat.py *)

Lemma lower_opengl_fixed : compat.lower "opengl" = "opengl".
Proof. reflexivity. Qed.

(** X1.  [is_opengl_renderer] answers [True] exactly when the value it
    examines (the argument, or [config.renderer] for [None]) is the member
    [OPENGL] or reads "opengl" once [str] and [lower] are applied: names
    are recognised whatever their case, and everything else is not
    OpenGL. *)
Theorem opengl_is_recognised_whatever_the_case :
  forall cfg r : compat.pyvalue,
    compat.is_opengl_renderer cfg r = true <->
    compat.examined cfg r = compat.py_member compat.OPENGL \/
    compat.lower (compat.str (compat.examined cfg r)) = "opengl".
Proof.
  intros cfg r. unfold compat.is_opengl_renderer, compat.get_renderer_type.
  fold (compat.examined cfg r).
  destruct (compat.examined cfg r) as [ | m | s | repr ].
  - cbn. split; [ discriminate | intros [H | H]; discriminate ].
  - destruct m; cbn; split; try discriminate; auto.
    intros [H | H]; discriminate.
  - cbn [compat.lookup_member compat.str compat.value].
    destruct (String.eqb s "cairo") eqn:Ec.
    + apply String.eqb_eq in Ec. subst s. cbn.
      split; [ discriminate | intros [H | H]; discriminate ].
    + destruct (String.eqb s "opengl") eqn:Eo.
      * apply String.eqb_eq in Eo. subst s. cbn. split; auto.
      * destruct (String.eqb (compat.lower s) "opengl") eqn:El; cbn.
        -- apply String.eqb_eq in El. split; auto.
        -- apply String.eqb_neq in El.
           split; [ discriminate | intros [H | H]; [ discriminate | tauto ] ].
  - cbn [compat.lookup_member compat.str compat.value].
    destruct (String.eqb (compat.lower repr) "opengl") eqn:El; cbn.
    + apply String.eqb_eq in El. split; auto.
    + apply String.eqb_neq in El.
      split; [ discriminate | intros [H | H]; [ discriminate | tauto ] ].
Qed.

(** X2.  A string that spells a member's value in any mix of cases is
    resolved to that member, whatever [config.renderer] holds. *)
Theorem renderer_names_ignore_case :
  forall (cfg : compat.pyvalue) (s : string) (m : compat.RendererType),
    compat.lower s = compat.value m ->
    compat.get_renderer_type cfg (compat.py_string s) = m.
Proof.
  intros cfg s m Hs. unfold compat.get_renderer_type.
  cbn [compat.lookup_member compat.str compat.value].
  destruct (String.eqb s "cairo") eqn:Ec.
  { apply String.eqb_eq in Ec. subst s. destruct m; [ reflexivity | discriminate ]. }
  destruct (String.eqb s "opengl") eqn:Eo.
  { apply String.eqb_eq in Eo. subst s. destruct m; [ discriminate | reflexivity ]. }
  rewrite Hs. destruct m; reflexivity.
Qed.

Lemma renderer_names_ignore_case_witness :
  compat.get_renderer_type (compat.py_string "cairo") (compat.py_string "OpenGL")
  = compat.OPENGL.
Proof.
  apply (renderer_names_ignore_case (compat.py_string "cairo") "OpenGL"
           compat.OPENGL).
  reflexivity.
Defined.

(* ================================================================== *)
(** ** Further properties: the oscillator *)


(** X4.  No sequence of attach, start, stop, reset and redraw calls changes
    the oscillator's rest length, stiffness, damping, block width or anchor
    line, whichever of the calls return and whichever raise. *)
Theorem configuration_is_kept :
  forall (ops : list operation) (w : World),
    config (self (after_all ops w)) = config (self w).
Proof.
  unfold after_all. intros ops.
  induction ops as [ | op ops IH ]; intros w; cbn [fold_left].
  - reflexivity.
  - rewrite IH. apply config_kept.
Qed.

Lemma redraw_exact (w : World) :
  redraw w =
  (Ok tt,
   mkWorld
     (set_spring
        (manim.set_points_smoothly
           (map (coil_point (_get_anchor_point (self w))
                   (drawn_axis (_get_anchor_point (self w))
                      (_block_anchor_point (self w)))
                   (drawn_normal (_get_anchor_point (self w))
                      (_block_anchor_point (self w)))
                   (coils (_spring_style (self w)))
                   (amplitude (_spring_style (self w))))
              (np.linspace 0 1 (Z.max (4 * coils (_spring_style (self w))) 8)))
           (spring (self w)))
        (self w))
     (scenes w) (next_id w)).
Proof.
  unfold redraw, bind, get_self, lift, _redraw_spring.
  rewrite spring_points_closed_form. reflexivity.
Qed.

(** X5.  The per-frame redraw never raises and is idempotent: a second
    redraw with no call in between returns and leaves the heap, the
    spring's points included, exactly as the first left it. *)
Theorem redraw_twice :
  forall w : World,
    fst (run Redraw w) = Ok tt /\
    run Redraw (after Redraw w) = (Ok tt, after Redraw w).
Proof.
  intros w. unfold after. cbn [run].
  rewrite (redraw_exact w). cbn [fst snd]. split; [ reflexivity | ].
  rewrite redraw_exact. reflexivity.
Qed.

Lemma normal_is_unit (anchor far : np.ndarray) :
  np.item0 (drawn_normal anchor far) * np.item0 (drawn_normal anchor far)
  + np.item1 (drawn_normal anchor far) * np.item1 (drawn_normal anchor far) = 1
  /\ np.item2 (drawn_normal anchor far) = 0.
Proof.
  unfold drawn_normal.
  destruct (Req_dec_T (np.norm2 (far - anchor)%np) 0) as [E | N].
  - unfold UP, manim.UP. cbn. split; [ ring | reflexivity ].
  - split; [ | reflexivity ].
    unfold planar_normal. cbn [np.item0 np.item1].
    set (v := (far - anchor)%np) in *.
    assert (Hsq : np.norm2 v * np.norm2 v =
                  np.item0 v * np.item0 v + np.item1 v * np.item1 v).
    { unfold np.norm2. apply sqrt_sqrt. nra. }
    replace (- (np.item1 v / np.norm2 v) * - (np.item1 v / np.norm2 v)
             + np.item0 v / np.norm2 v * (np.item0 v / np.norm2 v))
      with ((np.item0 v * np.item0 v + np.item1 v * np.item1 v)
            / (np.norm2 v * np.norm2 v))
      by (field; exact N).
    rewrite <- Hsq. field. exact N.
Qed.

(** X6.  Every point the curve synthesizer emits stays within the
    amplitude of the axis it draws along: measured on the drawing plane, its
    distance to the axis point of the same parameter is at most the
    amplitude, and it sits at that axis point's height. *)
Theorem curve_stays_within_amplitude :
  forall (anchor far : np.ndarray) (style : SpringStyle),
  exists pts : list np.ndarray,
    spring_points anchor far style = Ok pts /\
    forall (i : nat) (d : np.ndarray),
      (i < length pts)%nat ->
      planar_gap_sq (nth i pts d)
        (axis_point anchor far (uniform_sample (length pts) i))
      <= amplitude style * amplitude style /\
      np.item2 (nth i pts d) =
      np.item2 (axis_point anchor far (uniform_sample (length pts) i)).
Proof.
  intros anchor far style.
  eexists. split; [ apply spring_points_closed_form | ].
  intros i d Hi. rewrite length_map, linspace_length in *.
  rewrite closed_form_nth by (assumption || lia).
  set (t := uniform_sample _ i).
  destruct (normal_is_unit anchor far) as [Hunit Hz].
  unfold planar_gap_sq, axis_point, coil_point, np.add, np.multiply.
  cbn [np.item0 np.item1 np.item2]. rewrite Hz.
  set (n0 := np.item0 (drawn_normal anchor far)) in *.
  set (n1 := np.item1 (drawn_normal anchor far)) in *.
  set (a := amplitude style).
  set (s := sin (2 * PI * IZR (coils style) * t)).
  split; [ | ring ].
  assert (Hs : s * s <= 1).
  { pose proof (SIN_bound (2 * PI * IZR (coils style) * t)) as [H1 H2].
    fold s in H1, H2. nra. }
  replace ((np.item0 anchor + np.item0 (drawn_axis anchor far) * t + n0 * a * s
            - (np.item0 anchor + np.item0 (drawn_axis anchor far) * t))
           * (np.item0 anchor + np.item0 (drawn_axis anchor far) * t + n0 * a * s
              - (np.item0 anchor + np.item0 (drawn_axis anchor far) * t))
           + (np.item1 anchor + np.item1 (drawn_axis anchor far) * t + n1 * a * s
              - (np.item1 anchor + np.item1 (drawn_axis anchor far) * t))
             * (np.item1 anchor + np.item1 (drawn_axis anchor far) * t + n1 * a * s
                - (np.item1 anchor + np.item1 (drawn_axis anchor far) * t)))
    with ((n0 * n0 + n1 * n1) * (a * a) * (s * s)) by ring.
  rewrite Hunit. nra.
Qed.

(** X7.  For a block bound to a body, the anchor point sits on the drawing
    plane at half the block's width from the body's position, whatever the
    body's rotation: the attachment point turns with the body. *)
Theorem anchor_point_turns_with_the_body :
  forall (o : SpringBlockOscillator) (body : pymunk.Body),
    manim.body (block o) = Some body ->
    planar_gap_sq (_block_anchor_point o) (body_point body) =
    block_width o / 2 * (block_width o / 2) /\
    np.item2 (_block_anchor_point o) = 0 /\
    _block_anchor_point o =
    np.array
      (pymunk.x (pymunk.position body)
       - block_width o / 2 * cos (pymunk.angle body))
      (pymunk.y (pymunk.position body)
       - block_width o / 2 * sin (pymunk.angle body))
      0.
Proof.
  intros o body Hb. unfold _block_anchor_point. rewrite Hb.
  unfold planar_gap_sq, body_point, pymunk.rotated, pymunk.vadd,
    _block_local_anchor.
  cbn [pymunk.x pymunk.y np.item0 np.item1 np.item2].
  pose proof (sin2_cos2 (pymunk.angle body)) as Hsc. unfold Rsqr in Hsc.
  set (c := cos (pymunk.angle body)) in *.
  set (s := sin (pymunk.angle body)) in *.
  set (h := block_width o / 2).
  replace (- block_width o / 2) with (- h) by (unfold h; field).
  split; [ | split; [ reflexivity | f_equal; ring ] ].
  replace ((pymunk.x (pymunk.position body) + (- h * c - 0 * s)
            - pymunk.x (pymunk.position body))
           * (pymunk.x (pymunk.position body) + (- h * c - 0 * s)
              - pymunk.x (pymunk.position body))
           + (pymunk.y (pymunk.position body) + (- h * s + 0 * c)
              - pymunk.y (pymunk.position body))
             * (pymunk.y (pymunk.position body) + (- h * s + 0 * c)
                - pymunk.y (pymunk.position body)))
    with (h * h * (s * s + c * c)) by ring.
  rewrite Hsc. ring.
Qed.

Lemma anchor_point_turns_with_the_body_witness :
  planar_gap_sq (_block_anchor_point (self world_with_body)) (body_point body0) =
  block_width (self world_with_body) / 2 * (block_width (self world_with_body) / 2)
  /\ np.item2 (_block_anchor_point (self world_with_body)) = 0
  /\ _block_anchor_point (self world_with_body) =
     np.array
       (pymunk.x (pymunk.position body0)
        - block_width (self world_with_body) / 2 * cos (pymunk.angle body0))
       (pymunk.y (pymunk.position body0)
        - block_width (self world_with_body) / 2 * sin (pymunk.angle body0))
       0.
Proof.
  apply (anchor_point_turns_with_the_body (self world_with_body) body0).
  reflexivity.
Defined.

Lemma started_body_anchor_point (w : World) (d v : R) (body : pymunk.Body) :
  _block_anchor_point (self (put_block_body (started_body (self w) d v body) w)) =
  np.array (np.item0 (_get_anchor_point (self w)) + (rest_length (self w) + d))
           (np.item1 (_get_anchor_point (self w))) 0.
Proof.
  unfold _block_anchor_point. cbn [put_block_body self block set_block
                                     manim.body manim.set_body block_width].
  unfold started_body, _block_local_anchor, pymunk.rotated, pymunk.vadd.
  cbn [pymunk.angle pymunk.position pymunk.activate pymunk.set_angle
       pymunk.set_angular_velocity pymunk.set_velocity pymunk.set_position
       pymunk.x pymunk.y].
  rewrite cos_0, sin_0.
  unfold RIGHT, manim.RIGHT, np.add, np.multiply.
  cbn [np.item0 np.item1 np.item2 block_width set_block].
  f_equal; field.
Qed.

Lemma start_heap (w : World) :
  attached (self w) ->
  exists (w1 : World) (body : pymunk.Body),
    attached (self w1) /\
    spring_joint (self w1) <> None /\
    manim.body (block (self w1)) = Some body /\
    anchor (self w1) = anchor (self w) /\
    rest_length (self w1) = rest_length (self w) /\
    forall d v,
      after (Start d v) w = put_block_body (started_body (self w1) d v body) w1.
Proof.
  intros Hatt.
  destruct (manim.body (block (self w))) as [body | ] eqn:Hb;
    [ | destruct Hatt as (_ & N & _); congruence ].
  destruct (create_joint_attached w Hatt)
    as (w1 & Hc & Hj & Hs & Hblock & Hanchor & Hrest & Hwidth).
  exists w1, body.
  split.
  { destruct Hatt as (H1 & H2 & H3). unfold attached.
    now rewrite Hs, Hblock, Hanchor. }
  split; [ exact Hj | ].
  split; [ now rewrite Hblock | ].
  split; [ exact Hanchor | ].
  split; [ exact Hrest | ].
  intros d v.
  destruct (start_oscillation_attached d v w body Hatt Hb)
    as (w1' & Hc' & _ & _ & Hstart).
  rewrite Hc in Hc'. injection Hc' as <-.
  unfold after. cbn [run]. rewrite Hstart. cbn [snd].
  f_equal. unfold started_body, _get_anchor_point.
  now rewrite Hanchor, Hrest, Hwidth.
Qed.

(** X8.  After [start_oscillation(d, v)] on an attached oscillator the
    block's anchor point lies on the drawing plane, level with the anchor
    point and [rest_length + d] to its right: the displacement is the
    spring's extension beyond its rest length. *)
Theorem start_stretches_the_spring :
  forall (d v : R) (w : World),
    attached (self w) ->
    _get_anchor_point (self (after (Start d v) w)) = _get_anchor_point (self w) /\
    _block_anchor_point (self (after (Start d v) w)) =
    np.array (np.item0 (_get_anchor_point (self w)) + (rest_length (self w) + d))
             (np.item1 (_get_anchor_point (self w))) 0.
Proof.
  intros d v w Hatt.
  destruct (start_heap w Hatt)
    as (w1 & body & _ & _ & _ & Hanchor & Hrest & Hafter).
  rewrite Hafter, started_body_anchor_point.
  unfold _get_anchor_point. cbn [put_block_body self anchor set_block].
  now rewrite Hanchor, Hrest.
Qed.

Lemma start_stretches_the_spring_witness :
  _get_anchor_point (self (after (Start 1 0) world_attached)) =
  _get_anchor_point (self world_attached) /\
  _block_anchor_point (self (after (Start 1 0) world_attached)) =
  np.array
    (np.item0 (_get_anchor_point (self world_attached))
     + (rest_length (self world_attached) + 1))
    (np.item1 (_get_anchor_point (self world_attached))) 0.
Proof.
  apply (start_stretches_the_spring 1 0 world_attached).
  repeat split; discriminate.
Defined.

Lemma spring_points_ends (anchor far : np.ndarray) (style : SpringStyle) :
  ~ degenerate anchor far ->
  exists middle : list np.ndarray,
    spring_points anchor far style = Ok (anchor :: middle ++ [far]).
Proof.
  intros Hnd. rewrite spring_points_nondegenerate by assumption.
  set (f := coil_point anchor (far - anchor)%np (planar_normal (far - anchor)%np)
              (coils style) (amplitude style)).
  set (num := Z.max (4 * coils style) 8).
  assert (Hlen : length (map f (np.linspace 0 1 num)) = Z.to_nat num)
    by now rewrite length_map, linspace_length.
  pose proof (resolution_to_nat (coils style)) as Hnum. fold num in Hnum.
  destruct (list_ends (map f (np.linspace 0 1 num)) anchor) as [middle E];
    [ lia | ].
  exists middle. rewrite E at 1. rewrite Hlen.
  unfold f at 1 2. rewrite !closed_form_nth by lia.
  rewrite uniform_sample_first, uniform_sample_last by lia.
  now rewrite coil_point_start, coil_point_end.
Qed.

Lemma redraw_points (w : World) (pts : list np.ndarray) :
  spring_points (_get_anchor_point (self w)) (_block_anchor_point (self w))
    (_spring_style (self w)) = Ok pts ->
  manim.points (spring (self (after Redraw w))) = pts.
Proof.
  intros H. unfold after. cbn [run].
  unfold redraw, bind, get_self, lift, _redraw_spring. now rewrite H.
Qed.

(** X9.  On an attached oscillator, [start_oscillation(d, v)] followed by
    a redraw leaves a spring that runs from the anchor point to the block's
    new anchor point, [rest_length + d] to the right of it, provided that
    length is not zero: the drawn spring tracks the body the call has just
    placed. *)
Theorem spring_follows_the_started_block :
  forall (d v : R) (w : World),
    attached (self w) ->
    rest_length (self w) + d <> 0 ->
    exists middle : list np.ndarray,
      manim.points (spring (self (after Redraw (after (Start d v) w)))) =
      _get_anchor_point (self w)
      :: middle
      ++ [np.array
            (np.item0 (_get_anchor_point (self w)) + (rest_length (self w) + d))
            (np.item1 (_get_anchor_point (self w))) 0].
Proof.
  intros d v w Hatt Hlen.
  destruct (start_heap w Hatt)
    as (w1 & body & _ & _ & _ & Hanchor & Hrest & Hafter).
  specialize (Hafter d v).
  assert (Ha : _get_anchor_point (self (after (Start d v) w)) =
               _get_anchor_point (self w)).
  { rewrite Hafter. unfold _get_anchor_point.
    cbn [put_block_body self anchor set_block]. now rewrite Hanchor. }
  assert (Hb : _block_anchor_point (self (after (Start d v) w)) =
               np.array
                 (np.item0 (_get_anchor_point (self w)) + (rest_length (self w) + d))
                 (np.item1 (_get_anchor_point (self w))) 0).
  { rewrite Hafter, started_body_anchor_point. unfold _get_anchor_point.
    now rewrite Hanchor, Hrest. }
  set (A := _get_anchor_point (self w)) in *.
  set (B := np.array (np.item0 A + (rest_length (self w) + d)) (np.item1 A) 0)
    in *.
  assert (Hnd : ~ degenerate A B).
  { unfold degenerate, B. cbn [np.item0 np.item1]. intros [H _]. lra. }
  destruct (spring_points_ends A B
              (_spring_style (self (after (Start d v) w))) Hnd)
    as [middle Hpts].
  exists middle. apply redraw_points. now rewrite Ha, Hb.
Qed.

Lemma spring_follows_the_started_block_witness :
  exists middle : list np.ndarray,
    manim.points
      (spring (self (after Redraw (after (Start 1 0) world_attached)))) =
    _get_anchor_point (self world_attached)
    :: middle
    ++ [np.array
          (np.item0 (_get_anchor_point (self world_attached))
           + (rest_length (self world_attached) + 1))
          (np.item1 (_get_anchor_point (self world_attached))) 0].
Proof.
  apply (spring_follows_the_started_block 1 0 world_attached).
  - repeat split; discriminate.
  - cbn. lra.
Defined.

Lemma reset_bound (w : World) (body : pymunk.Body) :
  manim.body (block (self w)) = Some body ->
  reset_displacement w = (Ok tt, put_block_body (reset_body (self w) body) w).
Proof.
  intros Hb.
  unfold reset_displacement. unfold bind at 1. unfold get_self at 1.
  rewrite Hb. unfold bind.
  rewrite (with_block_body_bound _ w body Hb).
  rewrite (with_block_body_bound _ _ _ (put_block_body_body _ _)).
  rewrite (with_block_body_bound _ _ _ (put_block_body_body _ _)).
  rewrite (with_block_body_bound _ _ _ (put_block_body_body _ _)).
  now rewrite !put_block_body_twice.
Qed.

Lemma started_body_fields (o : SpringBlockOscillator) (d v : R)
    (body : pymunk.Body) :
  started_body o d v body =
  pymunk.mkBody (pymunk.ident body) (pymunk.mass body)
    (pymunk.mkVec2d
       (np.item0 (_get_anchor_point o + RIGHT * (rest_length o + block_width o / 2)
                  + RIGHT * d)%np)
       (np.item1 (_get_anchor_point o + RIGHT * (rest_length o + block_width o / 2)
                  + RIGHT * d)%np))
    (pymunk.mkVec2d v 0) 0 0 false.
Proof. reflexivity. Qed.

Lemma reset_body_fields (o : SpringBlockOscillator) (body : pymunk.Body) :
  reset_body o body =
  pymunk.mkBody (pymunk.ident body) (pymunk.mass body)
    (pymunk.mkVec2d
       (np.item0 (_get_anchor_point o + RIGHT * (rest_length o + block_width o / 2))%np)
       (np.item1 (_get_anchor_point o + RIGHT * (rest_length o + block_width o / 2))%np))
    (pymunk.mkVec2d 0 0) 0 0 (pymunk.is_sleeping body).
Proof. reflexivity. Qed.

Lemma add_RIGHT_nothing (c : np.ndarray) :
  np.item0 (c + RIGHT * 0)%np = np.item0 c /\
  np.item1 (c + RIGHT * 0)%np = np.item1 c.
Proof.
  destruct c as [c0 c1 c2]. unfold np.add, np.multiply, RIGHT, manim.RIGHT.
  cbn [np.item0 np.item1 np.item2]. split; ring.
Qed.

Lemma reset_started_body (o : SpringBlockOscillator) (d v : R)
    (body : pymunk.Body) :
  reset_body o (started_body o d v body) = started_body o 0 0 body.
Proof.
  rewrite reset_body_fields, (started_body_fields o 0 0).
  destruct (add_RIGHT_nothing
              (_get_anchor_point o + RIGHT * (rest_length o + block_width o / 2))%np)
    as [-> ->].
  rewrite started_body_fields. reflexivity.
Qed.

(** X10.  On an attached oscillator, [start_oscillation(d, v)] followed by
    [reset_displacement] leaves the heap that [start_oscillation(0, 0)]
    alone leaves: the block at rest at the rest position, awake, the
    constraint active. *)
Theorem reset_after_start :
  forall (d v : R) (w : World),
    attached (self w) ->
    run Reset (after (Start d v) w) = (Ok tt, after (Start 0 0) w).
Proof.
  intros d v w Hatt.
  destruct (start_heap w Hatt) as (w1 & body & _ & _ & _ & _ & _ & Hafter).
  rewrite !Hafter. cbn [run].
  rewrite (reset_bound _ _ (put_block_body_body _ _)).
  rewrite put_block_body_twice. do 2 f_equal.
  change (reset_body (self w1) (started_body (self w1) d v body) =
          started_body (self w1) 0 0 body).
  apply reset_started_body.
Qed.

Lemma reset_after_start_witness :
  run Reset (after (Start 1 3) world_attached) =
  (Ok tt, after (Start 0 0) world_attached).
Proof.
  apply (reset_after_start 1 3 world_attached).
  repeat split; discriminate.
Defined.

(** X11.  On an attached oscillator the last [start_oscillation] wins: a
    start right after another start leaves the heap the second start alone
    would have left, with the same single constraint. *)
Theorem last_start_wins :
  forall (d1 v1 d2 v2 : R) (w : World),
    attached (self w) ->
    run (Start d2 v2) (after (Start d1 v1) w) = (Ok tt, after (Start d2 v2) w).
Proof.
  intros d1 v1 d2 v2 w Hatt.
  destruct (start_heap w Hatt)
    as (w1 & body & Hatt1 & Hj1 & Hb1 & _ & _ & Hafter).
  rewrite !Hafter. cbn [run].
  destruct (spring_joint (self w1)) as [joint | ] eqn:Hj; [ | congruence ].
  rewrite (start_on_recorded d2 v2 _ joint (started_body (self w1) d1 v1 body)).
  - rewrite put_block_body_twice. reflexivity.
  - destruct Hatt1 as (H1 & H2 & H3). repeat split; try assumption.
    discriminate.
  - exact Hj.
  - apply put_block_body_body.
Qed.

Lemma last_start_wins_witness :
  run (Start 0 2) (after (Start 1 0) world_attached) =
  (Ok tt, after (Start 0 2) world_attached).
Proof.
  apply (last_start_wins 1 0 0 2 world_attached).
  repeat split; discriminate.
Defined.

(* ------------------------------------------------------------------ *)
(** *** Removal and re-creation of the constraint *)

Lemma stop_removes (w : World) (scene : nat) (joint : pymunk.DampedSpring)
    (body : pymunk.Body) :
  _spacescene (self w) = Some scene ->
  spring_joint (self w) = Some joint ->
  pymunk.registered joint (space (scenes w scene)) = true ->
  manim.body (block (self w)) = Some body ->
  stop_oscillation w =
  (Ok tt, put_block_body (pymunk.sleep body) (unregister_joint scene joint w)).
Proof.
  intros Hs Hj Hreg Hb.
  unfold stop_oscillation, bind, get_self. rewrite Hs, Hj.
  unfold try_modify_space, pymunk.remove. rewrite Hreg.
  cbn. rewrite Hb.
  unfold with_block_body, bind, get_self. cbn. rewrite Hb. cbn.
  unfold put_block_body, unregister_joint. cbn. reflexivity.
Qed.

Lemma registered_last (joint : pymunk.DampedSpring) (s : pymunk.Space)
    (l : list pymunk.DampedSpring) :
  pymunk.constraints s = l ++ [joint] -> pymunk.registered joint s = true.
Proof.
  intros E. unfold pymunk.registered. rewrite E, existsb_app. cbn.
  rewrite Nat.eqb_refl. apply Bool.orb_true_iff. right. reflexivity.
Qed.

(** The heap [attach_to_scene] leaves from a fresh oscillator, in full. *)
Lemma attach_heap (scene : nat) (w : World) :
  unattached (self w) ->
  exists (w0 : World) (body : pymunk.Body),
    attach_to_scene scene w =
    (Ok tt,
     register_joint scene (new_joint w0 (pymunk.static_body scene) body) w0) /\
    _spacescene (self w0) = Some scene /\
    manim.line_body (anchor (self w0)) = Some (pymunk.static_body scene) /\
    manim.body (block (self w0)) = Some body /\
    (forall r, active_constraints w0 r = active_constraints w r) /\
    config (self w0) = config (self w).
Proof.
  intros (_ & Hj & _ & _).
  destruct (attach_to_scene_prepares scene w)
    as (w0 & -> & Hs0 & Ha0 & Hb0 & Hj0 & Hact & Hcfg).
  destruct (manim.body (block (self w0))) as [body | ] eqn:Eb; [ | congruence ].
  rewrite Hj in Hj0.
  exists w0, body.
  rewrite (create_joint_creates w0 scene body _ Hs0 Eb Ha0 Hj0).
  repeat split; assumption.
Qed.

(** X12.  From a fresh oscillator in a heap where no simulation holds a
    constraint, attach, then start, then stop all return, and leave no
    constraint recorded or registered with any simulation and the block's
    body asleep. *)
Theorem stop_undoes_the_constraint :
  forall (scene : nat) (d v : R) (w : World),
    initial w ->
    fst (run (Attach scene) w) = Ok tt /\
    fst (run (Start d v) (after (Attach scene) w)) = Ok tt /\
    fst (run Stop (after (Start d v) (after (Attach scene) w))) = Ok tt /\
    spring_joint
      (self (after Stop (after (Start d v) (after (Attach scene) w)))) = None /\
    (forall r,
        active_constraints
          (after Stop (after (Start d v) (after (Attach scene) w))) r = []) /\
    exists body,
      manim.body
        (block (self (after Stop (after (Start d v) (after (Attach scene) w)))))
      = Some body /\
      pymunk.is_sleeping body = true.
Proof.
  intros scene d v w Hinit.
  pose proof (invariant_initial w Hinit) as Hinv.
  destruct Hinit as [Hun Hempty].
  destruct (attach_to_scene_unattached scene w Hun)
    as (w1 & joint & Hattach & Hatt1 & Hs1 & Hj1 & Hact1 & _).
  rewrite Hempty in Hact1. cbn [app] in Hact1.
  assert (Hw1 : after (Attach scene) w = w1)
    by (unfold after; cbn [run]; now rewrite Hattach).
  rewrite Hw1.
  destruct (manim.body (block (self w1))) as [b1 | ] eqn:Hb1;
    [ | destruct Hatt1 as (_ & N & _); congruence ].
  pose proof (start_on_recorded d v w1 joint b1 Hatt1 Hj1 Hb1) as Hstart.
  assert (Hw2 : after (Start d v) w1 =
                put_block_body (started_body (self w1) d v b1) w1)
    by (unfold after; cbn [run]; now rewrite Hstart).
  rewrite Hw2.
  destruct (stop_deactivates
              (put_block_body (started_body (self w1) d v b1) w1)
              scene joint (started_body (self w1) d v b1) Hs1 Hj1 Hact1 eq_refl)
    as (w3 & Hstop & Hj3 & _ & Hb3 & _).
  assert (Hw3 : after Stop (put_block_body (started_body (self w1) d v b1) w1)
                = w3)
    by (unfold after; cbn [run]; now rewrite Hstop).
  rewrite Hw3.
  split; [ cbn [run]; now rewrite Hattach | ].
  split; [ cbn [run]; now rewrite Hstart | ].
  split; [ cbn [run]; now rewrite Hstop | ].
  split; [ exact Hj3 | ].
  split.
  - assert (Hinv3 : lifecycle_invariant w3).
    { rewrite <- Hw3, <- Hw2, <- Hw1. now do 3 apply invariant_after. }
    destruct Hinv3 as [_ Hact3]. now rewrite Hj3 in Hact3.
  - eexists. split; [ exact Hb3 | reflexivity ].
Qed.

Lemma stop_undoes_the_constraint_witness :
  fst (run (Attach 0) world0) = Ok tt /\
  fst (run (Start 1 0) (after (Attach 0) world0)) = Ok tt /\
  fst (run Stop (after (Start 1 0) (after (Attach 0) world0))) = Ok tt /\
  spring_joint
    (self (after Stop (after (Start 1 0) (after (Attach 0) world0)))) = None /\
  (forall r,
      active_constraints
        (after Stop (after (Start 1 0) (after (Attach 0) world0))) r = []) /\
  exists body,
    manim.body
      (block (self (after Stop (after (Start 1 0) (after (Attach 0) world0)))))
    = Some body /\
    pymunk.is_sleeping body = true.
Proof.
  apply (stop_undoes_the_constraint 0 1 0 world0).
  split; [ repeat split | reflexivity ].
Defined.

(** X13.  From a fresh oscillator, the constraint that [start_oscillation]
    creates after attach and stop joins the same two bodies at the same
    attachment points, with the same rest length, stiffness and damping, as
    the one attach had created; it is a new object, registered in place of
    the old one. *)
Theorem constraint_is_rebuilt_alike :
  forall (scene : nat) (d v : R) (w : World),
    unattached (self w) ->
    exists j1 j3 : pymunk.DampedSpring,
      spring_joint (self (after (Attach scene) w)) = Some j1 /\
      spring_joint
        (self (after (Start d v) (after Stop (after (Attach scene) w)))) = Some j3 /\
      pymunk.a j3 = pymunk.a j1 /\
      pymunk.b j3 = pymunk.b j1 /\
      pymunk.anchor_a j3 = pymunk.anchor_a j1 /\
      pymunk.anchor_b j3 = pymunk.anchor_b j1 /\
      pymunk.rest_length j3 = pymunk.rest_length j1 /\
      pymunk.stiffness j3 = pymunk.stiffness j1 /\
      pymunk.damping j3 = pymunk.damping j1 /\
      pymunk.joint_id j3 <> pymunk.joint_id j1 /\
      In j3 (active_constraints
               (after (Start d v) (after Stop (after (Attach scene) w))) scene) /\
      ~ In j1 (active_constraints
                 (after (Start d v) (after Stop (after (Attach scene) w))) scene).
Proof.
  intros scene d v w Hun.
  destruct (attach_heap scene w Hun)
    as (w0 & body & Hattach & Hs0 & Ha0 & Hb0 & _ & _).
  set (j1 := new_joint w0 (pymunk.static_body scene) body) in *.
  set (w1 := register_joint scene j1 w0) in *.
  assert (Hw1 : after (Attach scene) w = w1)
    by (unfold after; cbn [run]; now rewrite Hattach).
  rewrite Hw1.
  (* stop *)
  assert (Hreg : pymunk.registered j1 (space (scenes w1 scene)) = true).
  { apply (registered_last j1 _ (active_constraints w0 scene)).
    apply (register_joint_active_same scene j1 w0). }
  pose proof (stop_removes w1 scene j1 body Hs0 eq_refl Hreg Hb0) as Hstop.
  set (w3 := put_block_body (pymunk.sleep body) (unregister_joint scene j1 w1))
    in *.
  assert (Hw3 : after Stop w1 = w3)
    by (unfold after; cbn [run]; now rewrite Hstop).
  rewrite Hw3.
  (* start *)
  assert (Hatt3 : attached (self w3)).
  { unfold attached. cbn. rewrite Hs0, Ha0. repeat split; discriminate. }
  pose proof (create_joint_creates w3 scene (pymunk.sleep body)
                (pymunk.static_body scene) Hs0 eq_refl Ha0 eq_refl) as Hcreate.
  set (j3 := new_joint w3 (pymunk.static_body scene) (pymunk.sleep body)) in *.
  destruct (start_oscillation_attached d v w3 (pymunk.sleep body) Hatt3 eq_refl)
    as (w4 & Hc & _ & _ & Hstart).
  rewrite Hcreate in Hc. injection Hc as <-.
  assert (Hw5 : after (Start d v) w3 =
                put_block_body (started_body (self w3) d v (pymunk.sleep body))
                  (register_joint scene j3 w3))
    by (unfold after; cbn [run]; now rewrite Hstart).
  rewrite Hw5.
  assert (Hid : pymunk.joint_id j3 <> pymunk.joint_id j1).
  { unfold j3, j1, new_joint. cbn. lia. }
  assert (Hact : active_constraints
                   (put_block_body
                      (started_body (self w3) d v (pymunk.sleep body))
                      (register_joint scene j3 w3)) scene =
                 filter
                   (fun j' =>
                      negb (Nat.eqb (pymunk.joint_id j') (pymunk.joint_id j1)))
                   (active_constraints w1 scene) ++ [j3]).
  { change (active_constraints (register_joint scene j3 w3) scene =
            filter
              (fun j' =>
                 negb (Nat.eqb (pymunk.joint_id j') (pymunk.joint_id j1)))
              (active_constraints w1 scene) ++ [j3]).
    rewrite register_joint_active_same. f_equal.
    unfold active_constraints, w3, unregister_joint. cbn.
    now rewrite Nat.eqb_refl. }
  exists j1, j3.
  split; [ reflexivity | ].
  split; [ reflexivity | ].
  do 7 (split; [ reflexivity | ]).
  split; [ exact Hid | ].
  rewrite Hact. split.
  - apply in_or_app. right. now left.
  - intros Hin. apply in_app_or in Hin. destruct Hin as [Hin | [E | []]].
    + apply filter_In in Hin. destruct Hin as [_ Hf].
      now rewrite Nat.eqb_refl in Hf.
    + apply Hid. now rewrite E.
Qed.

Lemma constraint_is_rebuilt_alike_witness :
  exists j1 j3 : pymunk.DampedSpring,
    spring_joint (self (after (Attach 0) world0)) = Some j1 /\
    spring_joint
      (self (after (Start 0 2) (after Stop (after (Attach 0) world0)))) = Some j3 /\
    pymunk.a j3 = pymunk.a j1 /\
    pymunk.b j3 = pymunk.b j1 /\
    pymunk.anchor_a j3 = pymunk.anchor_a j1 /\
    pymunk.anchor_b j3 = pymunk.anchor_b j1 /\
    pymunk.rest_length j3 = pymunk.rest_length j1 /\
    pymunk.stiffness j3 = pymunk.stiffness j1 /\
    pymunk.damping j3 = pymunk.damping j1 /\
    pymunk.joint_id j3 <> pymunk.joint_id j1 /\
    In j3 (active_constraints
             (after (Start 0 2) (after Stop (after (Attach 0) world0))) 0) /\
    ~ In j1 (active_constraints
               (after (Start 0 2) (after Stop (after (Attach 0) world0))) 0).
Proof.
  apply (constraint_is_rebuilt_alike 0 0 2 world0).
  repeat split.
Defined.

Lemma attach_sets_scene (scene : nat) (w : World) :
  _spacescene (self (after (Attach scene) w)) = Some scene.
Proof.
  unfold after. cbn [run].
  destruct (attach_to_scene_prepares scene w) as (w0 & -> & Hs0 & _).
  now apply (kept_create_joint _spacescene (fun _ _ => eq_refl) (Some scene) w0).
Qed.

(** X14.  Once the oscillator refers to a scene, [start_oscillation] cannot
    fail in any heap the lifecycle reaches, whatever calls came before and
    whether they returned or raised: it returns, and exactly one constraint
    is registered afterwards, the recorded one. *)
Theorem start_succeeds_once_attached :
  forall (d v : R) (w : World),
    reachable w ->
    _spacescene (self w) <> None ->
    fst (run (Start d v) w) = Ok tt /\
    exactly_one_constraint (after (Start d v) w).
Proof.
  intros d v w Hreach Hs.
  pose proof (reachable_invariant w Hreach) as Hinv.
  destruct (start_activates d v w Hinv Hs) as (Hok & Hj & _).
  split; [ exact Hok | ].
  apply invariant_exactly_one; [ now apply invariant_after | exact Hj ].
Qed.

Lemma start_succeeds_once_attached_witness :
  fst (run (Start 1 0) (after Stop (after (Attach 0) world0))) = Ok tt /\
  exactly_one_constraint (after (Start 1 0) (after Stop (after (Attach 0) world0))).
Proof.
  apply (start_succeeds_once_attached 1 0 (after Stop (after (Attach 0) world0))).
  - apply reachable_after, reachable_after, reachable_initial, world0_initial.
  - rewrite stop_keeps_scene, attach_sets_scene. discriminate.
Defined.

(* ------------------------------------------------------------------ *)
(** *** The shape of the curve *)

Lemma cos_whole_turns (c : Z) : cos (2 * PI * IZR c) = 1.
Proof.
  assert (Hnat : forall k : nat, cos (2 * PI * INR k) = 1).
  { intros k. replace (2 * PI * INR k) with (0 + 2 * INR k * PI) by ring.
    rewrite cos_period. apply cos_0. }
  destruct (Z.le_gt_cases 0 c) as [Hc | Hc].
  - rewrite <- (Z2Nat.id c Hc), <- INR_IZR_INZ. apply Hnat.
  - replace (2 * PI * IZR c) with (- (2 * PI * IZR (- c)))
      by (rewrite opp_IZR; ring).
    rewrite cos_neg.
    rewrite <- (Z2Nat.id (- c)) by lia. rewrite <- INR_IZR_INZ. apply Hnat.
Qed.

Lemma sin_mirror (c : Z) (t : R) :
  sin (2 * PI * IZR c * (1 - t)) = - sin (2 * PI * IZR c * t).
Proof.
  replace (2 * PI * IZR c * (1 - t))
    with (2 * PI * IZR c - 2 * PI * IZR c * t) by ring.
  rewrite sin_minus, cos_whole_turns.
  replace (2 * PI * IZR c) with (2 * PI * IZR c * 1) at 1 by ring.
  rewrite sin_whole_turns. ring.
Qed.

Lemma uniform_sample_mirror (n i : nat) :
  (2 <= n)%nat -> (i < n)%nat ->
  uniform_sample n (n - 1 - i) = 1 - uniform_sample n i.
Proof.
  intros Hn Hi. unfold uniform_sample.
  rewrite minus_INR by lia.
  assert (N : INR (n - 1) <> 0) by (apply not_0_INR; lia).
  field. exact N.
Qed.

(** X15.  The synthesized curve is symmetric about the midpoint of the axis
    it draws along: the [i]-th point and the [i]-th point from the end add
    up, item by item, to the anchor point plus the end of the drawn axis
    (the far point, when the two points differ on the drawing plane). *)
Theorem curve_is_point_symmetric :
  forall (anchor far : np.ndarray) (style : SpringStyle),
  exists pts : list np.ndarray,
    spring_points anchor far style = Ok pts /\
    forall (i : nat) (d : np.ndarray),
      (i < length pts)%nat ->
      (nth i pts d + nth (length pts - 1 - i) pts d)%np =
      (anchor + (anchor + drawn_axis anchor far))%np.
Proof.
  intros anchor far style.
  eexists. split; [ apply spring_points_closed_form | ].
  intros i d Hi. rewrite length_map, linspace_length in *.
  pose proof (resolution_to_nat (coils style)) as Hres.
  rewrite !closed_form_nth by lia.
  rewrite uniform_sample_mirror by lia.
  unfold coil_point. rewrite sin_mirror.
  unfold np.add. cbn [np.item0 np.item1 np.item2].
  f_equal; ring.
Qed.
